(** * golulo: a shallow embedding of the transaction pipeline and its commands

    The repository is a command-line client: it loads a keypair, asks a
    lending API for base64 transaction envelopes, patches their recent
    blockhash, signs them with the local key and submits them to a Solana
    RPC node.  Nearly every line is a call into an SDK (solana-go, viper,
    cobra, net/http, encoding/json).  The embedding keeps the control flow
    of the Go functions and puts every SDK call behind one interface
    record, [Env]; each call that leaves the process, and each call into
    the transaction SDK, is also recorded in a chronological call log, so
    that statements about "how many calls, in which order, and what was not
    called" are statements about that log.

    Logging through logrus has no influence on results and is left out. *)

From Stdlib Require Import ZArith NArith List String Ascii Bool Lia.
From Stdlib Require Import Floats.SpecFloat.
From Stdlib Require Import Decimal DecimalString.
From Stdlib Require DecimalPos DecimalN.
Import ListNotations.

Open Scope string_scope.
Open Scope list_scope.

(* ================================================================== *)
(** ** Go values *)

(** A Go [error] built by [fmt.Errorf]: [Errorf msg] when the format has
    no [%w] verb, [Errorf_w msg err] for [fmt.Errorf("msg%w", err)]. *)
Inductive error : Type :=
| Errorf (msg : string)
| Errorf_w (msg : string) (wrapped : error).

(** [err.Error()]: the message followed by the wrapped error's message. *)
Fixpoint Error (e : error) : string :=
  match e with
  | Errorf msg => msg
  | Errorf_w msg w => (msg ++ Error w)%string
  end.

(** A Go [[]byte] / [[N]byte]. *)
Definition bytes : Type := list Byte.byte.

Fixpoint bytes_eqb (a b : bytes) : bool :=
  match a, b with
  | [], [] => true
  | x :: a', y :: b' => Byte.eqb x y && bytes_eqb a' b'
  | _, _ => false
  end.

(** Go's [float64], as the standard library's specification of IEEE 754
    values: signed zeros, infinities, NaN and [(-1)^s * m * 2^e]. *)
Definition float64 : Type := spec_float.

(** [x == 0] on a [float64]: both zeros compare equal, NaN compares equal
    to nothing. *)
Definition float64_is_zero (x : float64) : bool := SFeqb x (S754_zero false).

(** What a Go call can do: return a value, return a non-nil [error], or
    panic. *)
Inductive outcome (A : Type) : Type :=
| Ok (a : A)
| Err (e : error)
| Panic.
Arguments Ok {A} a.
Arguments Err {A} e.
Arguments Panic {A}.

(* ================================================================== *)
(** ** The [fmt] verbs the commands use *)

Module fmt.

(** [%d] on an [int]. *)
Definition Itoa (n : Z) : string := NilZero.string_of_int (Z.to_int n).

(** The integer nearest to [m * 2^e], ties going to the even one: the
    rounding [strconv.FormatFloat(x, 'f', 0, 64)] applies to the exact
    decimal expansion of [x]. *)
Definition round_half_even (m : positive) (e : Z) : N :=
  match e with
  | Zneg p =>
      let d := N.pow 2 (Npos p) in
      let q := N.div (Npos m) d in
      let r := N.modulo (Npos m) d in
      match N.compare (2 * r) d with
      | Lt => q
      | Gt => N.succ q
      | Eq => if N.even q then q else N.succ q
      end
  | _ => (Npos m * N.pow 2 (Z.to_N e))%N
  end.

Definition sign_prefix (s : bool) : string := if s then "-" else "".

(** [fmt.Sprintf("%.0f", x)]: no fractional digits and no decimal point;
    the sign is printed for negative values (also for negative zero),
    NaN is [NaN], and the infinities carry their sign. *)
Definition Sprintf_0f (x : float64) : string :=
  match x with
  | S754_nan => "NaN"
  | S754_infinity false => "+Inf"
  | S754_infinity true => "-Inf"
  | S754_zero s => (sign_prefix s ++ "0")%string
  | S754_finite s m e =>
      (sign_prefix s
       ++ NilZero.string_of_uint (N.to_uint (round_half_even m e)))%string
  end.

End fmt.

(* ================================================================== *)
(** ** The solana-go types the client touches *)

Module solana.

Definition PublicKey : Type := bytes.    (* [32]byte *)
Definition PrivateKey : Type := bytes.   (* []byte   *)
Definition Signature : Type := bytes.    (* [64]byte *)
Definition Hash : Type := bytes.         (* [32]byte *)

(** [key.Equals(other)]: byte-wise comparison. *)
Definition Equals (a b : PublicKey) : bool := bytes_eqb a b.

Record CompiledInstruction : Type := {
  ProgramIDIndex : N;
  Accounts : list N;
  Data : bytes
}.

(** A not yet compiled instruction, as [NewTransaction] takes them. *)
Record Instruction : Type := {
  ProgramID : PublicKey;
  InstructionAccounts : list PublicKey;
  InstructionData : bytes
}.

Record MessageHeader : Type := {
  NumRequiredSignatures : N;
  NumReadonlySignedAccounts : N;
  NumReadonlyUnsignedAccounts : N
}.

Record Message : Type := {
  AccountKeys : list PublicKey;
  Header : MessageHeader;
  RecentBlockhash : Hash;
  Instructions : list CompiledInstruction
}.

Record Transaction : Type := {
  Signatures : list Signature;
  Message_ : Message
}.

(** [tx.Message.RecentBlockhash = h]. *)
Definition set_RecentBlockhash (tx : Transaction) (h : Hash) : Transaction :=
  {| Signatures := Signatures tx;
     Message_ := {| AccountKeys := AccountKeys (Message_ tx);
                    Header := Header (Message_ tx);
                    RecentBlockhash := h;
                    Instructions := Instructions (Message_ tx) |} |}.

(** The required signers of a message: its first
    [Header.NumRequiredSignatures] account keys.  Slot [i] of
    [Signatures] belongs to the [i]-th of them. *)
Definition signerKeys (tx : Transaction) : list PublicKey :=
  firstn (N.to_nat (NumRequiredSignatures (Header (Message_ tx))))
         (AccountKeys (Message_ tx)).

(** The callback [tx.Sign] asks for private keys; [None] is Go's [nil]. *)
Definition privateKeyGetter : Type := PublicKey -> option PrivateKey.

End solana.

Module rpc.

Inductive CommitmentType : Type :=
| CommitmentProcessed
| CommitmentConfirmed
| CommitmentFinalized.

Record TransactionOpts : Type := {
  SkipPreflight : bool;
  PreflightCommitment : CommitmentType
}.

(** An [*rpc.Client] is determined by the endpoint it was made for. *)
Definition Client : Type := string.

(** [rpc.New(endpoint)]. *)
Definition New (endpoint : string) : Client := endpoint.

End rpc.

Module http.

Definition StatusOK : Z := 200.

Record Request : Type := {
  Method : string;
  URL : string;
  Header : list (string * string);
  Body : option string
}.

Record Response : Type := {
  StatusCode : Z;
  ResponseBody : string
}.

Fixpoint set_assoc (k v : string) (l : list (string * string))
  : list (string * string) :=
  match l with
  | [] => [(k, v)]
  | (k', v') :: l' =>
      if String.eqb k k' then (k, v) :: l' else (k', v') :: set_assoc k v l'
  end.

(** [req.Header.Set(k, v)]: the value of [k] is replaced. *)
Definition Header_Set (k v : string) (r : Request) : Request :=
  {| Method := Method r; URL := URL r;
     Header := set_assoc k v (Header r); Body := Body r |}.

Fixpoint Header_Get (k : string) (l : list (string * string)) : option string :=
  match l with
  | [] => None
  | (k', v) :: l' => if String.eqb k k' then Some v else Header_Get k l'
  end.

End http.

(* ================================================================== *)
(** ** Calls and the call log *)

(** One entry per call that leaves the process (file system, HTTP, RPC,
    standard output) or enters the transaction SDK, with its arguments. *)
Inductive event : Type :=
| EvReadFile (path : string)
| EvHTTP (req : http.Request)
| EvGetLatestBlockhash (client : rpc.Client) (commitment : rpc.CommitmentType)
| EvDecodeString (s : string)
| EvTransactionFromDecoder (b : bytes)
| EvSign (tx : solana.Transaction)
| EvSendTransactionWithOpts (client : rpc.Client) (tx : solana.Transaction)
                            (opts : rpc.TransactionOpts)
| EvPrintln (s : string).

(** The calls made so far, oldest first. *)
Definition log : Type := list event.

(** A Go function body: it runs after some calls have been made, and ends
    with an outcome and the log extended by its own calls. *)
Definition M (A : Type) : Type := log -> outcome A * log.

Definition ret {A : Type} (a : A) : M A := fun h => (Ok a, h).

(** [return ..., err]. *)
Definition fail {A : Type} (e : error) : M A := fun h => (Err e, h).

Definition panic {A : Type} : M A := fun h => (Panic, h).

(** A call without a log entry. *)
Definition lift {A : Type} (o : outcome A) : M A := fun h => (o, h).

Definition bind {A B : Type} (m : M A) (k : A -> M B) : M B :=
  fun h =>
    match m h with
    | (Ok a, h') => k a h'
    | (Err e, h') => (Err e, h')
    | (Panic, h') => (Panic, h')
    end.

(** [if err != nil { return fmt.Errorf("msg%w", err) }]. *)
Definition wrap {A : Type} (msg : string) (m : M A) : M A :=
  fun h =>
    match m h with
    | (Err e, h') => (Err (Errorf_w msg e), h')
    | r => r
    end.

(** A logged call; what it answers may depend on the calls before it. *)
Definition call {A : Type} (ev : event) (answer : log -> outcome A) : M A :=
  fun h => (answer h, h ++ [ev]).

Declare Scope go_scope.
Delimit Scope go_scope with go.
Notation "x <- m ;; k" := (bind m (fun x => k))
  (at level 61, m at next level, right associativity) : go_scope.
Notation "m ;;; k" := (bind m (fun _ => k))
  (at level 61, right associativity) : go_scope.
Open Scope go_scope.

(** [for _, x := range xs { body }] with [return err] inside the body. *)
Fixpoint for_range {A : Type} (xs : list A) (body : A -> M unit) : M unit :=
  match xs with
  | [] => ret tt
  | x :: xs' => body x ;;; for_range xs' body
  end.

Definition is_network_call (ev : event) : bool :=
  match ev with
  | EvHTTP _ | EvGetLatestBlockhash _ _ | EvSendTransactionWithOpts _ _ _ => true
  | _ => false
  end.


(* ================================================================== *)
(** ** package internal: client.go *)

Module internal.

(** Everything [client.go] calls outside the repository.  [viper] is the
    merged configuration; the two RPC methods belong to the remote node,
    whose answers may depend on what it was sent before. *)
Record Env : Type := {
  viper_GetString : string -> string;
  os_ReadFile : log -> string -> outcome string;
  json_Unmarshal_uint8 : string -> outcome (list Byte.byte);
  (** [privateKey.PublicKey()] has no error result; [None] is a panic. *)
  PrivateKey_PublicKey : solana.PrivateKey -> option solana.PublicKey;
  PublicKey_String : solana.PublicKey -> string;
  NewTransaction : list solana.Instruction -> solana.Hash ->
                   solana.PublicKey -> outcome solana.Transaction;
  base64_DecodeString : string -> outcome bytes;
  TransactionFromDecoder : bytes -> outcome solana.Transaction;
  (** [tx.Sign(getter)]: the transaction as the call leaves it, and the
      error it returns. *)
  Transaction_Sign : solana.privateKeyGetter -> solana.Transaction ->
                     solana.Transaction * option error;
  GetLatestBlockhash : log -> rpc.Client -> rpc.CommitmentType ->
                       outcome solana.Hash;
  SendTransactionWithOpts : log -> rpc.Client -> solana.Transaction ->
                            rpc.TransactionOpts -> outcome solana.Signature
}.

Record SolanaClient : Type := {
  RpcClient : rpc.Client;
  PublicKey : solana.PublicKey;
  PrivateKey : solana.PrivateKey
}.

Section WithEnv.

Variable env : Env.

Definition NewSolanaClient : M SolanaClient :=
  let keypairPath := viper_GetString env "keypair" in
  if String.eqb keypairPath "" then
    fail (Errorf "keypair path not set in config")
  else
    keypairBytes <- wrap "failed to read keypair file: "
                      (call (EvReadFile keypairPath)
                            (fun h => os_ReadFile env h keypairPath)) ;;
    secretKey <- wrap "failed to parse keypair file: "
                   (lift (json_Unmarshal_uint8 env keypairBytes)) ;;
    let privateKey : solana.PrivateKey := secretKey in
    match PrivateKey_PublicKey env privateKey with
    | None => panic
    | Some publicKey =>
        let rpcURL := viper_GetString env "rpc-url" in
        if String.eqb rpcURL "" then
          fail (Errorf "RPC URL not set in config")
        else
          let rpcURL :=
            (rpcURL ++ "?api-key=" ++ viper_GetString env "rpc-api-key")%string in
          ret {| RpcClient := rpc.New rpcURL;
                 PublicKey := publicKey;
                 PrivateKey := privateKey |}
    end.

Definition WalletPubKey (c : SolanaClient) : solana.PublicKey := PublicKey c.

Definition CreateTransaction (c : SolanaClient)
           (instructions : list solana.Instruction) : M solana.Transaction :=
  recent <- wrap "failed to get recent blockhash: "
              (call (EvGetLatestBlockhash (RpcClient c) rpc.CommitmentFinalized)
                    (fun h => GetLatestBlockhash env h (RpcClient c)
                                                 rpc.CommitmentFinalized)) ;;
  tx <- wrap "failed to create transaction: "
          (lift (NewTransaction env instructions recent (PublicKey c))) ;;
  ret tx.

(** The callback [SignTransaction] hands to [tx.Sign]. *)
Definition signer (c : SolanaClient) : solana.privateKeyGetter :=
  fun key =>
    if solana.Equals key (PublicKey c) then Some (PrivateKey c) else None.

(** [SignTransaction] of client.go: both results of [tx.Sign] are
    dropped.  The pair is Go's result: a transaction pointer and an error. *)
Definition SignTransaction (c : SolanaClient) (tx : solana.Transaction)
  : option solana.Transaction * option error :=
  let '(tx', _) := Transaction_Sign env (signer c) tx in
  (Some tx', None).

Definition SendTransaction (c : SolanaClient) (tx : solana.Transaction)
  : M solana.Signature :=
  let opts := {| rpc.SkipPreflight := false;
                 rpc.PreflightCommitment := rpc.CommitmentFinalized |} in
  sig <- wrap "failed to send transaction: "
           (call (EvSendTransactionWithOpts (RpcClient c) tx opts)
                 (fun h => SendTransactionWithOpts env h (RpcClient c) tx opts)) ;;
  ret sig.

(** A call of [SignTransaction] followed by the caller's
    [if err != nil { return fmt.Errorf("msg%w", err) }]; a nil
    transaction with a nil error would be dereferenced next. *)
Definition call_SignTransaction
           (sign : solana.Transaction -> option solana.Transaction * option error)
           (msg : option string) (tx : solana.Transaction)
  : M solana.Transaction :=
  call (EvSign tx)
       (fun _ =>
          match sign tx with
          | (_, Some e) =>
              Err (match msg with Some m => Errorf_w m e | None => e end)
          | (Some tx', None) => Ok tx'
          | (None, None) => Panic
          end).

Definition CreateSignAndSendTransaction (c : SolanaClient)
           (instructions : list solana.Instruction) : M solana.Signature :=
  tx <- CreateTransaction c instructions ;;
  signedTx <- call_SignTransaction (SignTransaction c) None tx ;;
  SendTransaction c signedTx.

(** The body of the loop of [HandleB64Transactions]. *)
Definition handle_one (c : SolanaClient) (blockhash : solana.Hash)
           (b64_tx : string) : M unit :=
  txBytes <- wrap "failed to decode transaction: "
               (call (EvDecodeString b64_tx)
                     (fun _ => base64_DecodeString env b64_tx)) ;;
  tx <- wrap "failed to deserialize transaction: "
          (call (EvTransactionFromDecoder txBytes)
                (fun _ => TransactionFromDecoder env txBytes)) ;;
  let tx := solana.set_RecentBlockhash tx blockhash in
  tx <- call_SignTransaction (SignTransaction c)
                             (Some "failed to sign transaction: ") tx ;;
  sig <- wrap "failed to send transaction: " (SendTransaction c tx) ;;
  ret tt.

Definition HandleB64Transactions (c : SolanaClient) (b64_txs : list string)
  : M unit :=
  blockhash <- wrap "failed to get latest blockhash: "
                 (call (EvGetLatestBlockhash (RpcClient c) rpc.CommitmentFinalized)
                       (fun h => GetLatestBlockhash env h (RpcClient c)
                                                    rpc.CommitmentFinalized)) ;;
  for_range b64_txs (handle_one c blockhash).

End WithEnv.

End internal.

(** The earlier [SignTransaction] kept in the repository (part_001): the
    error of [tx.Sign] is returned, wrapped, with a nil transaction. *)
Module part_001.

Definition SignTransaction (env : internal.Env) (c : internal.SolanaClient)
           (tx : solana.Transaction)
  : option solana.Transaction * option error :=
  let '(tx', err) := internal.Transaction_Sign env (internal.signer c) tx in
  match err with
  | Some e => (None, Some (Errorf_w "failed to sign transaction: " e))
  | None => (Some tx', None)
  end.

End part_001.

(* ================================================================== *)
(** ** package cmd: deposit.go, withdraw.go, account.go *)

Module cmd.

(** The package-level variables the flag parser fills in, and the names
    of the flags that were given on the command line. *)
Record Flags : Type := {
  amount : float64;
  mintAddress : string;
  withdrawAll : bool;
  changed : list string
}.

Module DepositRequest.
Record t : Type := {
  Owner : string;
  MintAddress : string;
  DepositAmount : string
}.
End DepositRequest.

Module TransactionMeta.
Record t : Type := {
  Transaction : string;
  Protocol : string;
  TotalDeposit : float64
}.
End TransactionMeta.

Module DepositResponse.
Record t : Type := { Data_TransactionMeta : list TransactionMeta.t }.
End DepositResponse.

Module WithdrawRequest.
Record t : Type := {
  Owner : string;
  MintAddress : string;
  WithdrawAmount : string;
  WithdrawAll : bool
}.
End WithdrawRequest.

Module WithdrawTransactionMeta.
Record t : Type := {
  Transaction : string;
  Protocol : string;
  TotalWithdraw : string
}.
End WithdrawTransactionMeta.

Module WithdrawResponse.
Record t : Type := { Data_TransactionMeta : list WithdrawTransactionMeta.t }.
End WithdrawResponse.

Module AccountSettings.
Record t : Type := {
  Owner : string;
  AllowedProtocols : string;
  Homebase : option string;
  MinimumRate : float64
}.
End AccountSettings.

Module AccountResponse.
Record t : Type := {
  Data_TotalValue : float64;
  Data_InterestEarned : float64;
  Data_RealtimeAPY : float64;
  Data_Settings : AccountSettings.t
}.
End AccountResponse.

(** What the commands call outside the repository, besides what
    [client.go] calls: JSON encoding and the lending API behind
    [httpClient.Do]. *)
Record Env : Type := {
  sdk : internal.Env;
  json_Marshal_DepositRequest : DepositRequest.t -> outcome string;
  json_Marshal_WithdrawRequest : WithdrawRequest.t -> outcome string;
  (** The error of [http.NewRequest(method, url, body)], if any. *)
  http_NewRequest_error : string -> string -> option error;
  http_Do : log -> http.Request -> outcome http.Response;
  json_Decode_DepositResponse : string -> outcome DepositResponse.t;
  json_Decode_WithdrawResponse : string -> outcome WithdrawResponse.t;
  json_Decode_AccountResponse : string -> outcome AccountResponse.t;
  json_MarshalIndent_AccountResponse : AccountResponse.t -> outcome string
}.

(** A cobra command, as far as these commands use one. *)
Record Command : Type := {
  Use : string;
  requiredFlags : list string;
  PreRunE : option (Flags -> outcome unit);
  RunE : Flags -> M unit
}.

Definition dquote : string := String (ascii_of_nat 34) EmptyString.

(** [c.ValidateRequiredFlags()]. *)
Definition ValidateRequiredFlags (c : Command) (fl : Flags) : outcome unit :=
  let missing :=
    filter (fun name => negb (existsb (String.eqb name) (changed fl)))
           (requiredFlags c) in
  match missing with
  | [] => Ok tt
  | _ =>
      Err (Errorf ("required flag(s) " ++ dquote
                   ++ String.concat (dquote ++ ", " ++ dquote) missing
                   ++ dquote ++ " not set")%string)
  end.

(** The order in which cobra runs a command whose flags are parsed:
    [PreRunE], then the check of required flags, then [RunE]; the first
    error ends the run. *)
Definition execute (c : Command) (fl : Flags) : M unit :=
  match PreRunE c with
  | Some pre => lift (pre fl)
  | None => ret tt
  end ;;;
  lift (ValidateRequiredFlags c fl) ;;;
  RunE c fl.

Section WithEnv.

Variable env : Env.

(** [http.NewRequest(method, url, body)]. *)
Definition http_NewRequest (method url : string) (body : option string)
  : outcome http.Request :=
  match http_NewRequest_error env method url with
  | Some e => Err e
  | None => Ok {| http.Method := method; http.URL := url;
                  http.Header := []; http.Body := body |}
  end.

Definition status_error (resp : http.Response) : error :=
  Errorf ("unexpected status code: " ++ fmt.Itoa (http.StatusCode resp))%string.

(** The request body [depositCmd] builds. *)
Definition deposit_request (client : internal.SolanaClient) (fl : Flags)
  : DepositRequest.t :=
  {| DepositRequest.Owner :=
       internal.PublicKey_String (sdk env) (internal.WalletPubKey client);
     DepositRequest.MintAddress := mintAddress fl;
     DepositRequest.DepositAmount := fmt.Sprintf_0f (amount fl) |}.

Definition depositCmd_RunE (fl : Flags) : M unit :=
  client <- wrap "failed to create client: " (internal.NewSolanaClient (sdk env)) ;;
  let request := deposit_request client fl in
  jsonData <- wrap "failed to marshal request: "
                (lift (json_Marshal_DepositRequest env request)) ;;
  let url := ("https://api.flexlend.fi/generate/account/deposit?priorityFee="
              ++ internal.viper_GetString (sdk env) "priority-fee")%string in
  req <- wrap "failed to create request: "
           (lift (http_NewRequest "POST" url (Some jsonData))) ;;
  let req := http.Header_Set "Accept" "application/json" req in
  let req := http.Header_Set "Content-Type" "application/json" req in
  let req := http.Header_Set "x-wallet-pubkey"
               (internal.PublicKey_String (sdk env) (internal.WalletPubKey client))
               req in
  let req := http.Header_Set "x-api-key"
               (internal.viper_GetString (sdk env) "lulo-api-key") req in
  resp <- wrap "failed to make request: "
            (call (EvHTTP req) (fun h => http_Do env h req)) ;;
  if negb (Z.eqb (http.StatusCode resp) http.StatusOK) then
    fail (status_error resp)
  else
    response <- wrap "failed to decode response: "
                  (lift (json_Decode_DepositResponse env (http.ResponseBody resp))) ;;
    let b64_txs := map TransactionMeta.Transaction
                       (DepositResponse.Data_TransactionMeta response) in
    wrap "failed to handle transactions: "
         (internal.HandleB64Transactions (sdk env) client b64_txs).

Definition depositCmd : Command :=
  {| Use := "deposit";
     requiredFlags := ["amount"; "mint"];
     PreRunE := None;
     RunE := depositCmd_RunE |}.

(** The request body [withdrawCmd] builds. *)
Definition withdraw_request (client : internal.SolanaClient) (fl : Flags)
  : WithdrawRequest.t :=
  {| WithdrawRequest.Owner :=
       internal.PublicKey_String (sdk env) (internal.WalletPubKey client);
     WithdrawRequest.MintAddress := mintAddress fl;
     WithdrawRequest.WithdrawAmount := fmt.Sprintf_0f (amount fl);
     WithdrawRequest.WithdrawAll := withdrawAll fl |}.

Definition withdrawCmd_RunE (fl : Flags) : M unit :=
  client <- wrap "failed to create client: " (internal.NewSolanaClient (sdk env)) ;;
  let request := withdraw_request client fl in
  jsonData <- wrap "failed to marshal request: "
                (lift (json_Marshal_WithdrawRequest env request)) ;;
  let url := ("https://api.flexlend.fi/generate/account/withdraw?priorityFee="
              ++ internal.viper_GetString (sdk env) "priority-fee")%string in
  req <- wrap "failed to create request: "
           (lift (http_NewRequest "POST" url (Some jsonData))) ;;
  let req := http.Header_Set "Accept" "application/json" req in
  let req := http.Header_Set "Content-Type" "application/json" req in
  let req := http.Header_Set "x-wallet-pubkey"
               (internal.PublicKey_String (sdk env) (internal.WalletPubKey client))
               req in
  let req := http.Header_Set "x-api-key"
               (internal.viper_GetString (sdk env) "lulo-api-key") req in
  resp <- wrap "failed to make request: "
            (call (EvHTTP req) (fun h => http_Do env h req)) ;;
  if negb (Z.eqb (http.StatusCode resp) http.StatusOK) then
    fail (status_error resp)
  else
    response <- wrap "failed to decode response: "
                  (lift (json_Decode_WithdrawResponse env (http.ResponseBody resp))) ;;
    let b64_txs := map WithdrawTransactionMeta.Transaction
                       (WithdrawResponse.Data_TransactionMeta response) in
    wrap "failed to handle transactions: "
         (internal.HandleB64Transactions (sdk env) client b64_txs).

(** The custom validation installed as [withdrawCmd.PreRunE]. *)
Definition withdrawCmd_PreRunE (fl : Flags) : outcome unit :=
  if negb (withdrawAll fl) && float64_is_zero (amount fl) then
    Err (Errorf "either --amount or --all flag must be specified")
  else
    Ok tt.

Definition withdrawCmd : Command :=
  {| Use := "withdraw";
     requiredFlags := ["mint"];
     PreRunE := Some withdrawCmd_PreRunE;
     RunE := withdrawCmd_RunE |}.

Definition accountCmd_RunE (fl : Flags) : M unit :=
  client <- wrap "failed to create client: " (internal.NewSolanaClient (sdk env)) ;;
  let url := "https://api.flexlend.fi/account" in
  req <- wrap "failed to create request: "
           (lift (http_NewRequest "GET" url None)) ;;
  let req := http.Header_Set "Accept" "application/json" req in
  let req := http.Header_Set "x-wallet-pubkey"
               (internal.PublicKey_String (sdk env) (internal.WalletPubKey client))
               req in
  let apiKey := internal.viper_GetString (sdk env) "lulo-api-key" in
  if String.eqb apiKey "" then
    fail (Errorf "FLEXLEND_API_KEY environment variable not set")
  else
    let req := http.Header_Set "x-api-key" apiKey req in
    resp <- wrap "failed to make request: "
              (call (EvHTTP req) (fun h => http_Do env h req)) ;;
    if negb (Z.eqb (http.StatusCode resp) http.StatusOK) then
      fail (status_error resp)
    else
      response <- wrap "failed to decode response: "
                    (lift (json_Decode_AccountResponse env (http.ResponseBody resp))) ;;
      prettyJSON <- wrap "failed to format response: "
                      (lift (json_MarshalIndent_AccountResponse env response)) ;;
      call (EvPrintln prettyJSON) (fun _ => Ok tt).

Definition accountCmd : Command :=
  {| Use := "account";
     requiredFlags := [];
     PreRunE := None;
     RunE := accountCmd_RunE |}.



End WithEnv.

End cmd.

(* ================================================================== *)
(** ** The earlier deposit command (part_002)

    The earlier [depositCmd] holds the loop that [HandleB64Transactions]
    took over.  Its three packages of calls are the same; it differs in
    the messages it wraps errors in, in taking the slice of required
    signers (for a log line), and in being built against a
    [SignTransaction] that can fail.  [SignTransaction] is the method of
    the client it is compiled with, hence an argument here. *)

Module part_002.

Section WithEnv.

Variable env : cmd.Env.

(** The capacity of [tx.Message.AccountKeys]: how the decoder allocated
    the slice is not in the transaction's value. *)
Variable cap_AccountKeys : solana.Transaction -> nat.

Variable SignTransaction :
  internal.SolanaClient -> solana.Transaction ->
  option solana.Transaction * option error.

(** [tx.Message.AccountKeys[:tx.Message.Header.NumRequiredSignatures]]:
    a slice expression panics when its bound exceeds the capacity. *)
Definition requiredSigners (tx : solana.Transaction) : M (list solana.PublicKey) :=
  let n := N.to_nat (solana.NumRequiredSignatures
                       (solana.Header (solana.Message_ tx))) in
  if (cap_AccountKeys tx <? n)%nat then panic
  else ret (firstn n (solana.AccountKeys (solana.Message_ tx))).

(** The body of the loop over [response.Data.TransactionMeta]. *)
Definition handle_meta (client : internal.SolanaClient) (blockhash : solana.Hash)
           (meta : cmd.TransactionMeta.t) : M unit :=
  let protocol := cmd.TransactionMeta.Protocol meta in
  txBytes <- wrap ("failed to decode transaction for " ++ protocol ++ ": ")%string
               (call (EvDecodeString (cmd.TransactionMeta.Transaction meta))
                     (fun _ => internal.base64_DecodeString
                                 (cmd.sdk env) (cmd.TransactionMeta.Transaction meta))) ;;
  tx <- wrap ("failed to deserialize transaction for " ++ protocol ++ ": ")%string
          (call (EvTransactionFromDecoder txBytes)
                (fun _ => internal.TransactionFromDecoder (cmd.sdk env) txBytes)) ;;
  let tx := solana.set_RecentBlockhash tx blockhash in
  signers <- requiredSigners tx ;;
  tx <- internal.call_SignTransaction (SignTransaction client)
                                      (Some "failed to sign transaction: ") tx ;;
  sig <- wrap ("failed to send transaction for " ++ protocol ++ ": ")%string
           (internal.SendTransaction (cmd.sdk env) client tx) ;;
  ret tt.

Definition depositCmd_RunE (fl : cmd.Flags) : M unit :=
  client <- wrap "failed to create client: "
              (internal.NewSolanaClient (cmd.sdk env)) ;;
  let request := cmd.deposit_request env client fl in
  jsonData <- wrap "failed to marshal request: "
                (lift (cmd.json_Marshal_DepositRequest env request)) ;;
  let url := ("https://api.flexlend.fi/generate/account/deposit?priorityFee="
              ++ internal.viper_GetString (cmd.sdk env) "priority-fee")%string in
  req <- wrap "failed to create request: "
           (lift (cmd.http_NewRequest env "POST" url (Some jsonData))) ;;
  let req := http.Header_Set "Accept" "application/json" req in
  let req := http.Header_Set "Content-Type" "application/json" req in
  let req := http.Header_Set "x-wallet-pubkey"
               (internal.PublicKey_String (cmd.sdk env) (internal.WalletPubKey client))
               req in
  let req := http.Header_Set "x-api-key"
               (internal.viper_GetString (cmd.sdk env) "lulo-api-key") req in
  resp <- wrap "failed to make request: "
            (call (EvHTTP req) (fun h => cmd.http_Do env h req)) ;;
  if negb (Z.eqb (http.StatusCode resp) http.StatusOK) then
    fail (cmd.status_error resp)
  else
    response <- wrap "failed to decode response: "
                  (lift (cmd.json_Decode_DepositResponse env (http.ResponseBody resp))) ;;
    blockhash <- wrap "failed to get latest blockhash: "
                   (call (EvGetLatestBlockhash (internal.RpcClient client)
                                               rpc.CommitmentFinalized)
                         (fun h => internal.GetLatestBlockhash
                                     (cmd.sdk env) h (internal.RpcClient client)
                                     rpc.CommitmentFinalized)) ;;
    for_range (cmd.DepositResponse.Data_TransactionMeta response)
              (handle_meta client blockhash).

End WithEnv.

End part_002.

(* ================================================================== *)
(** ** A test double for everything outside the repository

    A small, computable [Env]: a configuration, one keypair file, a
    lending API that answers every request with one fixed status and
    body, and a ledger node that starts rejecting submissions after a
    given number of them.  It stands where a test would put a mock
    ledger client and a simulated API. *)

Module Mock.

Fixpoint split_on (sep : ascii) (s : string) : list string :=
  match s with
  | EmptyString => [EmptyString]
  | String c s' =>
      if Ascii.eqb c sep then EmptyString :: split_on sep s'
      else match split_on sep s' with
           | [] => [String c EmptyString]
           | w :: ws => String c w :: ws
           end
  end.

Definition digit_of (c : ascii) : option N :=
  let n := N_of_ascii c in
  if (48 <=? n)%N && (n <=? 57)%N then Some (n - 48)%N else None.

Fixpoint decimal_of (acc : N) (s : string) : option N :=
  match s with
  | EmptyString => Some acc
  | String c s' =>
      match digit_of c with
      | Some d => decimal_of (10 * acc + d)%N s'
      | None => None
      end
  end.

Definition uint8_of (s : string) : option Byte.byte :=
  match s with
  | EmptyString => None
  | _ => match decimal_of 0%N s with
         | Some n => Byte.of_N n
         | None => None
         end
  end.

Fixpoint all_some {A : Type} (l : list (option A)) : option (list A) :=
  match l with
  | [] => Some []
  | Some a :: l' => option_map (cons a) (all_some l')
  | None :: _ => None
  end.

Definition strip_brackets (s : string) : option string :=
  match s with
  | String "[" rest =>
      match String.length rest with
      | O => None
      | S n => if String.eqb (substring n 1 rest) "]"
               then Some (substring 0 n rest) else None
      end
  | _ => None
  end.

(** A JSON array of numbers in [0, 255], written without spaces. *)
Definition json_Unmarshal_uint8 (s : string) : outcome (list Byte.byte) :=
  match strip_brackets s with
  | None => Err (Errorf "json: cannot unmarshal into Go value of type []uint8")
  | Some EmptyString => Ok []
  | Some inner =>
      match all_some (map uint8_of (split_on "," inner)) with
      | Some bs => Ok bs
      | None => Err (Errorf "json: cannot unmarshal into Go value of type []uint8")
      end
  end.

(** The public half of a 64-byte key: bytes 32 to 63.  Slicing a key
    shorter than 32 bytes panics; a longer one gives whatever is there,
    padded with zeros. *)
Definition PrivateKey_PublicKey (k : solana.PrivateKey) : option solana.PublicKey :=
  if (List.length k <? 32)%nat then None
  else Some (firstn 32 (skipn 32 k ++ repeat Byte.x00 32)).

Definition PublicKey_String (k : solana.PublicKey) : string :=
  string_of_list_byte k.

Definition empty_Signature : solana.Signature := repeat Byte.x00 64.

(** A digit for the number of required signatures, then one byte per
    account key. *)
Definition TransactionFromDecoder (b : bytes) : outcome solana.Transaction :=
  match b with
  | [] => Err (Errorf "unexpected EOF")
  | n :: keys =>
      let k := (Byte.to_N n - 48)%N in
      Ok {| solana.Signatures := repeat empty_Signature (N.to_nat k);
            solana.Message_ :=
              {| solana.AccountKeys := map (fun x => [x]) keys;
                 solana.Header :=
                   {| solana.NumRequiredSignatures := k;
                      solana.NumReadonlySignedAccounts := 0;
                      solana.NumReadonlyUnsignedAccounts := 0 |};
                 solana.RecentBlockhash := [];
                 solana.Instructions := [] |} |}
  end.

(** The envelope text stands for its own bytes; [!] is not in the
    alphabet. *)
Definition base64_DecodeString (s : string) : outcome bytes :=
  if existsb (Ascii.eqb "!") (list_ascii_of_string s)
  then Err (Errorf "illegal base64 data")
  else Ok (list_byte_of_string s).

Definition sign_message (priv : solana.PrivateKey) (tx : solana.Transaction)
  : solana.Signature :=
  firstn 64 (priv ++ solana.RecentBlockhash (solana.Message_ tx)
                  ++ repeat Byte.x01 64).

(** Slot [i] is written when the getter has a key for signer [i]. *)
Fixpoint fill_slots (getter : solana.privateKeyGetter) (tx : solana.Transaction)
         (keys : list solana.PublicKey) (slots : list solana.Signature)
  : list solana.Signature :=
  match keys, slots with
  | key :: keys', slot :: slots' =>
      match getter key with
      | Some priv => sign_message priv tx
      | None => slot
      end :: fill_slots getter tx keys' slots'
  | _, _ => slots
  end.

(** [tx.Sign]: an error, and nothing signed, when the getter has no key
    for one of the required signers; otherwise every slot is signed. *)
Definition Transaction_Sign (getter : solana.privateKeyGetter)
           (tx : solana.Transaction) : solana.Transaction * option error :=
  if forallb (fun key => match getter key with Some _ => true | None => false end)
             (solana.signerKeys tx)
  then ({| solana.Signatures :=
             fill_slots getter tx (solana.signerKeys tx) (solana.Signatures tx);
           solana.Message_ := solana.Message_ tx |}, None)
  else (tx, Some (Errorf "signer key not found. Ensure all the signer keys are in the vault")).

Definition NewTransaction (instructions : list solana.Instruction)
           (blockhash : solana.Hash) (payer : solana.PublicKey)
  : outcome solana.Transaction :=
  Ok {| solana.Signatures := [];
        solana.Message_ :=
          {| solana.AccountKeys := payer :: map solana.ProgramID instructions;
             solana.Header :=
               {| solana.NumRequiredSignatures := 1;
                  solana.NumReadonlySignedAccounts := 0;
                  solana.NumReadonlyUnsignedAccounts :=
                    N.of_nat (List.length instructions) |};
             solana.RecentBlockhash := blockhash;
             solana.Instructions := [] |} |}.

Definition submissions (h : log) : nat :=
  List.length (filter (fun ev => match ev with
                            | EvSendTransactionWithOpts _ _ _ => true
                            | _ => false
                            end) h).

Definition blockhash0 : solana.Hash := repeat Byte.x2a 32.

Definition keypair_path : string := "/home/user/id.json".

(** [lulo_key]: the configured lulo-api-key; [keyfile]: the text of the
    keypair file; [accept]: how many submissions the node accepts
    before it rejects every later one. *)
Definition sdk_env (lulo_key keyfile : string) (accept : nat) : internal.Env :=
  {| internal.viper_GetString :=
       fun key =>
         if String.eqb key "keypair" then keypair_path
         else if String.eqb key "rpc-url" then "https://rpc.test"
         else if String.eqb key "rpc-api-key" then "r"
         else if String.eqb key "lulo-api-key" then lulo_key
         else if String.eqb key "priority-fee" then "5000"
         else "";
     internal.os_ReadFile :=
       fun _ path =>
         if String.eqb path keypair_path then Ok keyfile
         else Err (Errorf "no such file or directory");
     internal.json_Unmarshal_uint8 := json_Unmarshal_uint8;
     internal.PrivateKey_PublicKey := PrivateKey_PublicKey;
     internal.PublicKey_String := PublicKey_String;
     internal.NewTransaction := NewTransaction;
     internal.base64_DecodeString := base64_DecodeString;
     internal.TransactionFromDecoder := TransactionFromDecoder;
     internal.Transaction_Sign := Transaction_Sign;
     internal.GetLatestBlockhash := fun _ _ _ => Ok blockhash0;
     internal.SendTransactionWithOpts :=
       fun h _ tx _ =>
         if (submissions h <? accept)%nat
         then Ok (hd empty_Signature (solana.Signatures tx))
         else Err (Errorf "Transaction simulation failed") |}.

(** [status], [body]: what the lending API answers; the body is a list
    of envelopes separated by semicolons. *)
Definition env (lulo_key keyfile : string) (accept : nat)
           (status : Z) (body : string) : cmd.Env :=
  {| cmd.sdk := sdk_env lulo_key keyfile accept;
     cmd.json_Marshal_DepositRequest :=
       fun r => Ok ("owner=" ++ cmd.DepositRequest.Owner r
                    ++ ";mintAddress=" ++ cmd.DepositRequest.MintAddress r
                    ++ ";depositAmount=" ++ cmd.DepositRequest.DepositAmount r)%string;
     cmd.json_Marshal_WithdrawRequest :=
       fun r => Ok ("owner=" ++ cmd.WithdrawRequest.Owner r
                    ++ ";mintAddress=" ++ cmd.WithdrawRequest.MintAddress r
                    ++ ";withdrawAmount=" ++ cmd.WithdrawRequest.WithdrawAmount r
                    ++ ";withdrawAll="
                    ++ (if cmd.WithdrawRequest.WithdrawAll r then "true" else "false"))%string;
     cmd.http_NewRequest_error := fun _ _ => None;
     cmd.http_Do :=
       fun _ _ => Ok {| http.StatusCode := status; http.ResponseBody := body |};
     cmd.json_Decode_DepositResponse :=
       fun b =>
         Ok {| cmd.DepositResponse.Data_TransactionMeta :=
                 map (fun e => {| cmd.TransactionMeta.Transaction := e;
                                  cmd.TransactionMeta.Protocol := "test";
                                  cmd.TransactionMeta.TotalDeposit := S754_zero false |})
                     (split_on ";" b) |};
     cmd.json_Decode_WithdrawResponse :=
       fun b =>
         Ok {| cmd.WithdrawResponse.Data_TransactionMeta :=
                 map (fun e => {| cmd.WithdrawTransactionMeta.Transaction := e;
                                  cmd.WithdrawTransactionMeta.Protocol := "test";
                                  cmd.WithdrawTransactionMeta.TotalWithdraw := "0" |})
                     (split_on ";" b) |};
     cmd.json_Decode_AccountResponse :=
       fun _ => Err (Errorf "unexpected end of JSON input");
     cmd.json_MarshalIndent_AccountResponse := fun _ => Ok "{}" |}.

(** A keypair file with the 64 bytes 1, 2, ..., 64. *)
Definition keyfile64 : string :=
  "[1,2,3,4,5,6,7,8,9,10,11,12,13,14,15,16,17,18,19,20,21,22,23,24,25,26,27,28,29,30,31,32,33,34,35,36,37,38,39,40,41,42,43,44,45,46,47,48,49,50,51,52,53,54,55,56,57,58,59,60,61,62,63,64]".

(** The client [NewSolanaClient] makes from [keyfile64]. *)
Definition client0 : internal.SolanaClient :=
  {| internal.RpcClient := "https://rpc.test?api-key=r";
     internal.PublicKey := map (fun n => match Byte.of_N n with
                                         | Some b => b
                                         | None => Byte.x00
                                         end)
                               (map N.of_nat (seq 33 32));
     internal.PrivateKey := map (fun n => match Byte.of_N n with
                                          | Some b => b
                                          | None => Byte.x00
                                          end)
                                (map N.of_nat (seq 1 64)) |}.

(** A client whose public key is the single byte [A], the key format of
    the envelopes [TransactionFromDecoder] reads here. *)
Definition clientA : internal.SolanaClient :=
  {| internal.RpcClient := "https://rpc.test?api-key=r";
     internal.PublicKey := list_byte_of_string "A";
     internal.PrivateKey := list_byte_of_string "secret" |}.

Definition flags (a : float64) (all : bool) (given : list string) : cmd.Flags :=
  {| cmd.amount := a; cmd.mintAddress := "MINT";
     cmd.withdrawAll := all; cmd.changed := given |}.

(** 5 as a [float64]. *)
Definition five : float64 := S754_finite false 5 0.

(** A keypair file with the 40 bytes 1, 2, ..., 40: a byte array, and not
    the encoding of a key. *)
Definition keyfile40 : string :=
  "[1,2,3,4,5,6,7,8,9,10,11,12,13,14,15,16,17,18,19,20,21,22,23,24,25,26,27,28,29,30,31,32,33,34,35,36,37,38,39,40]".

(** A transaction with two required signers, [A] and [B], and both
    signature slots empty: what [TransactionFromDecoder] reads from the
    envelope [2AB]. *)
Definition txAB : solana.Transaction :=
  {| solana.Signatures := [empty_Signature; empty_Signature];
     solana.Message_ :=
       {| solana.AccountKeys := [list_byte_of_string "A"; list_byte_of_string "B"];
          solana.Header :=
            {| solana.NumRequiredSignatures := 2;
               solana.NumReadonlySignedAccounts := 0;
               solana.NumReadonlyUnsignedAccounts := 0 |};
          solana.RecentBlockhash := [];
          solana.Instructions := [] |} |}.

End Mock.

(* ================================================================== *)
(** ** What the statements below speak of *)

(** Every call a function body adds to the log satisfies [P]. *)
Definition emits {A : Type} (P : event -> Prop) (m : M A) : Prop :=
  forall h : log, exists t : log, snd (m h) = h ++ t /\ Forall P t.

(** The options [SendTransaction] passes to the node. *)
Definition finalized_opts : rpc.TransactionOpts :=
  {| rpc.SkipPreflight := false;
     rpc.PreflightCommitment := rpc.CommitmentFinalized |}.

(** A blockhash fetch asks for finalized commitment; a submission has
    preflight checks on, at finalized commitment. *)
Definition finalized_call (ev : event) : Prop :=
  match ev with
  | EvGetLatestBlockhash _ c => c = rpc.CommitmentFinalized
  | EvSendTransactionWithOpts _ _ opts =>
      rpc.SkipPreflight opts = false
      /\ rpc.PreflightCommitment opts = rpc.CommitmentFinalized
  | _ => True
  end.

Definition not_network_call (ev : event) : Prop := is_network_call ev = false.

Definition not_HTTP (ev : event) : Prop :=
  match ev with EvHTTP _ => False | _ => True end.

(** The call reads a file: it is no HTTP or RPC call, and it does not
    decode, sign or submit a transaction. *)
Definition reads_file (ev : event) : Prop :=
  match ev with EvReadFile _ => True | _ => False end.

(** The calls [handle_one] makes for one envelope, with the arguments it
    makes them with: decode, deserialize, then - on the transaction
    carrying the batch's blockhash - sign, and submit what signing left.
    The list stops after the first of the SDK's two decoders that fails. *)
Definition envelope_calls (env : internal.Env) (c : internal.SolanaClient)
           (blockhash : solana.Hash) (b64_tx : string) : list event :=
  EvDecodeString b64_tx ::
  match internal.base64_DecodeString env b64_tx with
  | Ok txBytes =>
      EvTransactionFromDecoder txBytes ::
      match internal.TransactionFromDecoder env txBytes with
      | Ok tx =>
          let tx := solana.set_RecentBlockhash tx blockhash in
          [ EvSign tx;
            EvSendTransactionWithOpts
              (internal.RpcClient c)
              (fst (internal.Transaction_Sign env (internal.signer c) tx))
              finalized_opts ]
      | _ => []
      end
  | _ => []
  end.



Fixpoint all_chars (p : ascii -> bool) (s : string) : bool :=
  match s with
  | EmptyString => true
  | String c s' => p c && all_chars p s'
  end.

Definition is_digit (c : ascii) : bool :=
  let n := nat_of_ascii c in (48 <=? n)%nat && (n <=? 57)%nat.


Definition digits (s : string) : bool :=
  match s with
  | EmptyString => false
  | _ => all_chars is_digit s
  end.



(** A short name for a call, to show a log at a glance. *)
Definition event_kind (ev : event) : string :=
  match ev with
  | EvReadFile _ => "read"
  | EvHTTP _ => "http"
  | EvGetLatestBlockhash _ _ => "blockhash"
  | EvDecodeString _ => "decode"
  | EvTransactionFromDecoder _ => "deserialize"
  | EvSign _ => "sign"
  | EvSendTransactionWithOpts _ _ _ => "submit"
  | EvPrintln _ => "print"
  end.

(** How a command that asks the lending API ends, from any log [h]:
    either it stops before the request, having only read files; or it
    makes one HTTP call, after file reads [A], and what follows is
    decided by the answer - a transport error is returned wrapped, a
    status other than 200 is returned as [status_error] with nothing
    called after the request, and after a status 200 whatever the command
    returns is not a [status_error]. *)
Definition api_shape (env : cmd.Env) (run : M unit) : Prop :=
  forall h : log,
    (exists A, snd (run h) = h ++ A /\ Forall reads_file A)
    \/ (exists A req0,
           Forall reads_file A
           /\ match cmd.http_Do env (h ++ A) req0 with
              | Ok resp =>
                  if Z.eqb (http.StatusCode resp) http.StatusOK then
                    exists B,
                      snd (run h) = h ++ A ++ EvHTTP req0 :: B
                      /\ Forall not_HTTP B
                      /\ forall resp', fst (run h) <> Err (cmd.status_error resp')
                  else
                    run h = (Err (cmd.status_error resp), h ++ A ++ [EvHTTP req0])
              | Err e =>
                  run h = (Err (Errorf_w "failed to make request: " e),
                           h ++ A ++ [EvHTTP req0])
              | Panic => run h = (Panic, h ++ A ++ [EvHTTP req0])
              end).

(* ================================================================== *)
(** ** What the further statements speak of *)

(** Every call a function body adds to the log satisfies [P], and a value
    it returns satisfies [Q]. *)
Definition yields {A : Type} (P : event -> Prop) (Q : A -> Prop) (m : M A)
  : Prop :=
  forall h : log,
  exists t : log,
    snd (m h) = h ++ t /\ Forall P t /\ forall a, fst (m h) = Ok a -> Q a.

Definition is_submit (ev : event) : bool :=
  match ev with EvSendTransactionWithOpts _ _ _ => true | _ => false end.



Definition is_print (ev : event) : bool :=
  match ev with EvPrintln _ => true | _ => false end.

(** How many calls of a log satisfy [p]. *)
Definition count (p : event -> bool) (l : log) : nat :=
  List.length (filter p l).

(** A client as [NewSolanaClient] makes them from the configuration: the
    public key is the one [PublicKey()] gives for the private key, and the
    endpoint is the configured, non-empty RPC URL with the RPC key as its
    query. *)
Definition loaded (env : internal.Env) (c : internal.SolanaClient) : Prop :=
  internal.viper_GetString env "keypair" <> ""
  /\ internal.viper_GetString env "rpc-url" <> ""
  /\ internal.PrivateKey_PublicKey env (internal.PrivateKey c)
     = Some (internal.PublicKey c)
  /\ internal.RpcClient c
     = (internal.viper_GetString env "rpc-url" ++ "?api-key="
        ++ internal.viper_GetString env "rpc-api-key")%string.

(** The request [depositCmd] and [withdrawCmd] hand to [httpClient.Do],
    for the operation named in the URL and an encoded body. *)
Definition generate_request (env : cmd.Env) (operation : string)
           (c : internal.SolanaClient) (body : string) : http.Request :=
  {| http.Method := "POST";
     http.URL := ("https://api.flexlend.fi/generate/account/" ++ operation
                  ++ "?priorityFee="
                  ++ internal.viper_GetString (cmd.sdk env) "priority-fee")%string;
     http.Header :=
       [ ("Accept", "application/json");
         ("Content-Type", "application/json");
         ("x-wallet-pubkey",
          internal.PublicKey_String (cmd.sdk env) (internal.PublicKey c));
         ("x-api-key", internal.viper_GetString (cmd.sdk env) "lulo-api-key") ];
     http.Body := Some body |}.



(** A call to the ledger node or into the transaction SDK. *)
Definition ledger_call (ev : event) : Prop :=
  match ev with
  | EvGetLatestBlockhash _ _ | EvDecodeString _ | EvTransactionFromDecoder _
  | EvSign _ | EvSendTransactionWithOpts _ _ _ => True
  | _ => False
  end.

(** The calls of a deposit or withdraw run come in this order: file
    reads; then, if the run gets that far, the one request to the API,
    [req]; then calls to the ledger node and the transaction SDK only. *)
Definition reads_then_request_then_ledger (A : log) (req : http.Request) : Prop :=
  Forall reads_file A
  \/ exists R B,
      A = R ++ EvHTTP req :: B /\ Forall reads_file R /\ Forall ledger_call B.

(** The two ways the earlier deposit loop ends where the present one goes
    on: a panic, and the error of [SignTransaction], which the loop wraps
    once more. *)
Definition stopped_where_the_present_goes_on (r : outcome unit) : Prop :=
  r = Panic
  \/ exists e,
      r = Err (Errorf_w "failed to sign transaction: "
                 (Errorf_w "failed to sign transaction: " e)).

(** How a run of the present code relates to a run of the earlier code
    from the same log: the earlier calls come first; an earlier success is
    the present result; and unless the earlier run stopped where the present
    one goes on, the calls are the same and both runs succeed or both
    fail. *)
Definition goes_on_from (old new : outcome unit * log) : Prop :=
  (exists t, snd new = snd old ++ t)
  /\ (fst old = Ok tt -> new = old)
  /\ (~ stopped_where_the_present_goes_on (fst old) ->
      snd new = snd old /\ (fst new = Ok tt <-> fst old = Ok tt)).

(** A submission of a transaction that [tx.Sign] left without an error,
    made by a loaded client with the client's options. *)
Definition submits_signed_only (env : internal.Env) (ev : event) : Prop :=
  match ev with
  | EvSendTransactionWithOpts client tx' opts =>
      exists c tx,
        loaded env c
        /\ client = internal.RpcClient c
        /\ opts = finalized_opts
        /\ internal.Transaction_Sign env (internal.signer c) tx = (tx', None)
  | _ => True
  end.

(** The text read as a decimal number. *)
Definition read_decimal (s : string) : option N :=
  option_map N.of_uint (NilZero.uint_of_string s).




(** A decoder that allocates exactly as many account keys as it reads. *)
Definition cap_is_length (tx : solana.Transaction) : nat :=
  List.length (solana.AccountKeys (solana.Message_ tx)).

(* ================================================================== *)
(** ** Runs against the test double *)

(** Three envelopes, a node that accepts one submission: one fetch, the
    second submission fails, the third envelope is never touched. *)
Example batch_stops_at_rejected_submission :
  let run := internal.HandleB64Transactions
               (Mock.sdk_env "key" Mock.keyfile64 1) Mock.clientA
               ["1A"; "2AB"; "1A"] [] in
  map event_kind (snd run)
  = ["blockhash"; "decode"; "deserialize"; "sign"; "submit";
     "decode"; "deserialize"; "sign"; "submit"]
  /\ fst run
     = Err (Errorf_w "failed to send transaction: "
              (Errorf_w "failed to send transaction: "
                 (Errorf "Transaction simulation failed"))).
Proof. split; reflexivity. Qed.

(** An envelope that is not base64 in the middle of the batch. *)
Example batch_stops_at_undecodable_envelope :
  let run := internal.HandleB64Transactions
               (Mock.sdk_env "key" Mock.keyfile64 9) Mock.clientA
               ["1A"; "!"; "1A"] [] in
  map event_kind (snd run)
  = ["blockhash"; "decode"; "deserialize"; "sign"; "submit"; "decode"]
  /\ fst run
     = Err (Errorf_w "failed to decode transaction: "
              (Errorf "illegal base64 data")).
Proof. split; reflexivity. Qed.

(** An empty batch still fetches the blockhash. *)
Example empty_batch_fetches_once :
  map event_kind
      (snd (internal.HandleB64Transactions
              (Mock.sdk_env "key" Mock.keyfile64 9) Mock.clientA [] []))
  = ["blockhash"].
Proof. reflexivity. Qed.

Example keyfile64_loads :
  fst (internal.NewSolanaClient (Mock.sdk_env "key" Mock.keyfile64 9) [])
  = Ok Mock.client0.
Proof. reflexivity. Qed.

Example envelope_2AB_is_txAB :
  Mock.TransactionFromDecoder (list_byte_of_string "2AB") = Ok Mock.txAB.
Proof. reflexivity. Qed.

Example deposit_run :
  map event_kind
      (snd (cmd.execute (cmd.depositCmd (Mock.env "key" Mock.keyfile64 9 200 "1A;2AB"))
                        (Mock.flags Mock.five false ["amount"; "mint"]) []))
  = ["read"; "http"; "blockhash"; "decode"; "deserialize"; "sign"; "submit";
     "decode"; "deserialize"; "sign"; "submit"].
Proof. reflexivity. Qed.

Example Sprintf_0f_rounds_half_to_even :
  fmt.Sprintf_0f (S754_finite false 5 (-1)) = "2"     (* 2.5 *)
  /\ fmt.Sprintf_0f (S754_finite false 7 (-1)) = "4"  (* 3.5 *)
  /\ fmt.Sprintf_0f (S754_finite true 1 (-1)) = "-0"  (* -0.5 *)
  /\ fmt.Sprintf_0f (S754_finite false 1000000 0) = "1000000"
  /\ fmt.Sprintf_0f S754_nan = "NaN"
  /\ fmt.Sprintf_0f (S754_infinity false) = "+Inf".
Proof. repeat split; reflexivity. Qed.

(* ================================================================== *)
(** ** Rendering of amounts *)











(* ================================================================== *)
(** ** Validation of the withdraw flags *)

Lemma float64_is_zero_default : float64_is_zero (S754_zero false) = true.
Proof. reflexivity. Qed.

Lemma withdrawCmd_PreRunE_rejects (fl : cmd.Flags) :
  cmd.withdrawAll fl = false ->
  float64_is_zero (cmd.amount fl) = true ->
  cmd.withdrawCmd_PreRunE fl
  = Err (Errorf "either --amount or --all flag must be specified").
Proof.
  intros Hall Hzero. unfold cmd.withdrawCmd_PreRunE.
  rewrite Hall, Hzero. reflexivity.
Qed.

Lemma withdrawCmd_PreRunE_accepts (fl : cmd.Flags) :
  cmd.withdrawAll fl = true \/ float64_is_zero (cmd.amount fl) = false ->
  cmd.withdrawCmd_PreRunE fl = Ok tt.
Proof.
  unfold cmd.withdrawCmd_PreRunE.
  intros [H | H]; rewrite H; simpl; [reflexivity|].
  rewrite andb_false_r. reflexivity.
Qed.

(** A failing [PreRunE] ends the command before [RunE] starts: the log is
    the one the command was given. *)
Lemma execute_PreRunE_fails (c : cmd.Command) (fl : cmd.Flags) (h : log)
      (pre : cmd.Flags -> outcome unit) (e : error) :
  cmd.PreRunE c = Some pre ->
  pre fl = Err e ->
  cmd.execute c fl h = (Err e, h).
Proof.
  intros Hpre He. unfold cmd.execute, bind, lift.
  rewrite Hpre, He. reflexivity.
Qed.

(** C4.  A withdraw run with [--all] unset and [--amount] left at its
    default fails with the validation error, and it does so before
    anything is called: the log is unchanged, so the keypair file was not
    read (no client was made) and no request went to the API or the
    node. *)
Theorem C4_withdraw_without_amount_or_all :
  forall (env : cmd.Env) (fl : cmd.Flags) (h : log),
    cmd.withdrawAll fl = false ->
    cmd.amount fl = S754_zero false ->
    cmd.execute (cmd.withdrawCmd env) fl h
    = (Err (Errorf "either --amount or --all flag must be specified"), h).
Proof.
  intros env fl h Hall Hamount.
  apply execute_PreRunE_fails with (pre := cmd.withdrawCmd_PreRunE).
  - reflexivity.
  - apply withdrawCmd_PreRunE_rejects; [exact Hall|].
    rewrite Hamount. apply float64_is_zero_default.
Qed.

Lemma C4_withdraw_without_amount_or_all_witness :
  cmd.execute (cmd.withdrawCmd (Mock.env "key" Mock.keyfile64 9 200 "1A"))
              (Mock.flags (S754_zero false) false ["mint"]) []
  = (Err (Errorf "either --amount or --all flag must be specified"), []).
Proof.
  apply C4_withdraw_without_amount_or_all; reflexivity.
Defined.

(** C10.  The withdraw validation passes exactly when [--all] is set or
    the amount is not zero.  It reads only those two variables, so an
    explicit [--amount 0] is rejected with the error an absent amount
    gets; with [--all] set it passes whatever the amount, and the request
    then carries the rendered amount next to [withdrawAll = true]. *)
Theorem C10_withdraw_validation :
  forall (env : cmd.Env) (client : internal.SolanaClient) (fl : cmd.Flags),
    (cmd.withdrawCmd_PreRunE fl = Ok tt
     <-> cmd.withdrawAll fl = true \/ float64_is_zero (cmd.amount fl) = false)
    /\ (forall (mint : string) (given : list string),
          cmd.withdrawCmd_PreRunE
            {| cmd.amount := S754_zero false; cmd.mintAddress := mint;
               cmd.withdrawAll := false; cmd.changed := given |}
          = Err (Errorf "either --amount or --all flag must be specified"))
    /\ (cmd.withdrawAll fl = true ->
        cmd.withdrawCmd_PreRunE fl = Ok tt
        /\ cmd.WithdrawRequest.WithdrawAmount (cmd.withdraw_request env client fl)
           = fmt.Sprintf_0f (cmd.amount fl)
        /\ cmd.WithdrawRequest.WithdrawAll (cmd.withdraw_request env client fl)
           = true).
Proof.
  intros env client fl. split; [split|split].
  - intros Hok. unfold cmd.withdrawCmd_PreRunE in Hok.
    destruct (cmd.withdrawAll fl); [left; reflexivity|].
    destruct (float64_is_zero (cmd.amount fl)); [discriminate Hok|].
    right; reflexivity.
  - apply withdrawCmd_PreRunE_accepts.
  - intros mint given. reflexivity.
  - intros Hall. split; [|split].
    + apply withdrawCmd_PreRunE_accepts. left; exact Hall.
    + reflexivity.
    + exact Hall.
Qed.

(* ================================================================== *)
(** ** Rules for [emits] *)

Section EmitsRules.

Variable P : event -> Prop.

Lemma emits_ret {A : Type} (a : A) : emits P (ret a).
Proof. intros h. exists []. simpl. rewrite app_nil_r. auto. Qed.

Lemma emits_fail {A : Type} (e : error) : emits P (@fail A e).
Proof. intros h. exists []. simpl. rewrite app_nil_r. auto. Qed.

Lemma emits_panic {A : Type} : emits P (@panic A).
Proof. intros h. exists []. simpl. rewrite app_nil_r. auto. Qed.

Lemma emits_lift {A : Type} (o : outcome A) : emits P (lift o).
Proof. intros h. exists []. simpl. rewrite app_nil_r. auto. Qed.

Lemma emits_call {A : Type} (ev : event) (answer : log -> outcome A) :
  P ev -> emits P (call ev answer).
Proof. intros Hev h. exists [ev]. simpl. auto. Qed.

Lemma emits_wrap {A : Type} (msg : string) (m : M A) :
  emits P m -> emits P (wrap msg m).
Proof.
  intros Hm h. destruct (Hm h) as [t [Ht HP]]. exists t.
  split; [|exact HP].
  unfold wrap. destruct (m h) as [[a | e |] h']; exact Ht.
Qed.

Lemma emits_bind {A B : Type} (m : M A) (k : A -> M B) :
  emits P m -> (forall a, emits P (k a)) -> emits P (bind m k).
Proof.
  intros Hm Hk h. destruct (Hm h) as [t [Ht HP]].
  unfold bind. destruct (m h) as [[a | e |] h']; simpl in Ht; subst h'.
  - destruct (Hk a (h ++ t)) as [t' [Ht' HP']].
    exists (t ++ t'). rewrite Ht', app_assoc.
    split; [reflexivity | apply Forall_app; auto].
  - exists t. auto.
  - exists t. auto.
Qed.

Lemma emits_for_range {A : Type} (xs : list A) (body : A -> M unit) :
  (forall x, emits P (body x)) -> emits P (for_range xs body).
Proof.
  intros Hbody. induction xs as [|x xs IH]; simpl.
  - apply emits_ret.
  - apply emits_bind; [apply Hbody | intros _; exact IH].
Qed.

End EmitsRules.

Ltac emits_step :=
  first
    [ apply emits_ret | apply emits_fail | apply emits_panic | apply emits_lift
    | apply emits_wrap
    | apply emits_for_range; intros
    | apply emits_bind; [|intros]
    | apply emits_call
    | match goal with
      | |- emits _ (if ?b then _ else _) => destruct b
      | |- emits _ (match ?x with _ => _ end) => destruct x
      end ].

Ltac emits_auto := repeat emits_step; simpl; auto.

Lemma emits_apply {A : Type} (P : event -> Prop) (m : M A) (h : log) :
  emits P m -> Forall P h -> Forall P (snd (m h)).
Proof.
  intros Hm Hh. destruct (Hm h) as [t [Ht HP]].
  rewrite Ht. apply Forall_app; auto.
Qed.

(* ================================================================== *)
(** ** Commitment and preflight *)

Lemma NewSolanaClient_emits (P : event -> Prop) (env : internal.Env) :
  (forall path, P (EvReadFile path)) ->
  emits P (internal.NewSolanaClient env).
Proof.
  intros HP. unfold internal.NewSolanaClient. emits_auto.
Qed.

Lemma SendTransaction_finalized (env : internal.Env) (c : internal.SolanaClient)
      (tx : solana.Transaction) :
  emits finalized_call (internal.SendTransaction env c tx).
Proof. unfold internal.SendTransaction. emits_auto. Qed.

Lemma HandleB64Transactions_finalized (env : internal.Env)
      (c : internal.SolanaClient) (b64_txs : list string) :
  emits finalized_call (internal.HandleB64Transactions env c b64_txs).
Proof.
  unfold internal.HandleB64Transactions, internal.handle_one,
    internal.call_SignTransaction, internal.SendTransaction.
  emits_auto.
Qed.

Lemma CreateSignAndSendTransaction_finalized (env : internal.Env)
      (c : internal.SolanaClient) (instructions : list solana.Instruction) :
  emits finalized_call (internal.CreateSignAndSendTransaction env c instructions).
Proof.
  unfold internal.CreateSignAndSendTransaction, internal.CreateTransaction,
    internal.call_SignTransaction, internal.SendTransaction.
  emits_auto.
Qed.

Lemma execute_emits (P : event -> Prop) (c : cmd.Command) (fl : cmd.Flags) :
  emits P (cmd.RunE c fl) -> emits P (cmd.execute c fl).
Proof.
  intros HP. unfold cmd.execute. emits_auto.
Qed.

Lemma commands_finalized (env : cmd.Env) (fl : cmd.Flags) :
  emits finalized_call (cmd.execute (cmd.depositCmd env) fl)
  /\ emits finalized_call (cmd.execute (cmd.withdrawCmd env) fl)
  /\ emits finalized_call (cmd.execute (cmd.accountCmd env) fl).
Proof.
  repeat split; apply execute_emits; simpl;
    unfold cmd.depositCmd_RunE, cmd.withdrawCmd_RunE, cmd.accountCmd_RunE.
  - apply emits_bind;
      [apply emits_wrap, NewSolanaClient_emits; simpl; auto | intros client].
    emits_auto.
  - apply emits_bind;
      [apply emits_wrap, NewSolanaClient_emits; simpl; auto | intros client].
    emits_auto.
  - apply emits_bind;
      [apply emits_wrap, NewSolanaClient_emits; simpl; auto | intros client].
    emits_auto.
Qed.

Lemma SendTransaction_eq (env : internal.Env) (c : internal.SolanaClient)
      (tx : solana.Transaction) (h : log) :
  internal.SendTransaction env c tx h
  = (match internal.SendTransactionWithOpts env h (internal.RpcClient c) tx
                                            finalized_opts with
     | Ok sig => Ok sig
     | Err e => Err (Errorf_w "failed to send transaction: " e)
     | Panic => Panic
     end,
     h ++ [EvSendTransactionWithOpts (internal.RpcClient c) tx finalized_opts]).
Proof.
  unfold internal.SendTransaction, bind, wrap, call, ret, finalized_opts.
  destruct (internal.SendTransactionWithOpts env h (internal.RpcClient c) tx _);
    reflexivity.
Qed.

(** C6.  Every call the client and the three commands add to the log is
    a [finalized_call]: each blockhash fetch asks for finalized
    commitment, each submission has [SkipPreflight] false and finalized
    preflight commitment.  [SendTransaction] makes exactly one such
    submission; it returns the node's signature when the node accepts,
    and the node's error wrapped in "failed to send transaction" when it
    rejects. *)
Theorem C6_finalized_commitment_and_preflight :
  forall (env : cmd.Env) (c : internal.SolanaClient),
    (forall b64_txs,
        emits finalized_call (internal.HandleB64Transactions (cmd.sdk env) c b64_txs))
    /\ (forall instructions,
           emits finalized_call
                 (internal.CreateSignAndSendTransaction (cmd.sdk env) c instructions))
    /\ (forall fl,
           emits finalized_call (cmd.execute (cmd.depositCmd env) fl)
           /\ emits finalized_call (cmd.execute (cmd.withdrawCmd env) fl)
           /\ emits finalized_call (cmd.execute (cmd.accountCmd env) fl))
    /\ (forall tx h,
           snd (internal.SendTransaction (cmd.sdk env) c tx h)
           = h ++ [EvSendTransactionWithOpts (internal.RpcClient c) tx
                     {| rpc.SkipPreflight := false;
                        rpc.PreflightCommitment := rpc.CommitmentFinalized |}]
           /\ fst (internal.SendTransaction (cmd.sdk env) c tx h)
              = match internal.SendTransactionWithOpts
                        (cmd.sdk env) h (internal.RpcClient c) tx
                        {| rpc.SkipPreflight := false;
                           rpc.PreflightCommitment := rpc.CommitmentFinalized |} with
                | Ok sig => Ok sig
                | Err e => Err (Errorf_w "failed to send transaction: " e)
                | Panic => Panic
                end).
Proof.
  intros env c. split; [|split; [|split]].
  - intros b64_txs. apply HandleB64Transactions_finalized.
  - intros instructions. apply CreateSignAndSendTransaction_finalized.
  - intros fl. apply commands_finalized.
  - intros tx h. rewrite SendTransaction_eq. split; reflexivity.
Qed.

(* ================================================================== *)
(** ** The batch: one fetch, then the envelopes in order *)

Lemma handle_one_log (env : internal.Env) (c : internal.SolanaClient)
      (blockhash : solana.Hash) (b64_tx : string) (h : log) :
  snd (internal.handle_one env c blockhash b64_tx h)
  = h ++ envelope_calls env c blockhash b64_tx.
Proof.
  unfold internal.handle_one, envelope_calls,
    internal.call_SignTransaction, internal.SignTransaction,
    internal.SendTransaction, finalized_opts.
  unfold bind, wrap, call, ret.
  destruct (internal.base64_DecodeString env b64_tx) as [txBytes | e |];
    simpl; try reflexivity.
  destruct (internal.TransactionFromDecoder env txBytes) as [tx | e |];
    simpl; try (rewrite <- app_assoc; reflexivity).
  destruct (internal.Transaction_Sign env (internal.signer c)
              (solana.set_RecentBlockhash tx blockhash)) as [tx' err].
  simpl.
  destruct (internal.SendTransactionWithOpts env _ _ _ _);
    simpl; repeat rewrite <- app_assoc; reflexivity.
Qed.


Lemma for_range_cons {A : Type} (x : A) (xs : list A) (body : A -> M unit)
      (h : log) :
  for_range (x :: xs) body h
  = match body x h with
    | (Ok _, h') => for_range xs body h'
    | (Err e, h') => (Err e, h')
    | (Panic, h') => (Panic, h')
    end.
Proof. reflexivity. Qed.




(* ================================================================== *)
(** ** Signing *)

Lemma bytes_eqb_eq (a b : bytes) : bytes_eqb a b = true <-> a = b.
Proof.
  revert b. induction a as [|x a IH]; intros [|y b]; simpl;
    try (split; [discriminate | discriminate]); [tauto|].
  rewrite andb_true_iff, IH. split.
  - intros [Hxy Hab]. apply Byte.byte_dec_bl in Hxy. subst. reflexivity.
  - intros Heq. injection Heq as Hxy Hab. subst.
    split; [apply Byte.byte_dec_lb|]; reflexivity.
Qed.

Lemma signer_own_key (c : internal.SolanaClient) :
  internal.signer c (internal.PublicKey c) = Some (internal.PrivateKey c).
Proof.
  unfold internal.signer, solana.Equals.
  destruct (bytes_eqb (internal.PublicKey c) (internal.PublicKey c)) eqn:E;
    [reflexivity|].
  assert (H : bytes_eqb (internal.PublicKey c) (internal.PublicKey c) = true)
    by (apply bytes_eqb_eq; reflexivity).
  rewrite H in E. discriminate E.
Qed.


Lemma SignTransaction_eq (env : internal.Env) (c : internal.SolanaClient)
      (tx : solana.Transaction) :
  internal.SignTransaction env c tx
  = (Some (fst (internal.Transaction_Sign env (internal.signer c) tx)), None).
Proof.
  unfold internal.SignTransaction.
  destruct (internal.Transaction_Sign env (internal.signer c) tx); reflexivity.
Qed.

Lemma part_001_SignTransaction_eq (env : internal.Env)
      (c : internal.SolanaClient) (tx : solana.Transaction) :
  part_001.SignTransaction env c tx
  = match snd (internal.Transaction_Sign env (internal.signer c) tx) with
    | Some e => (None, Some (Errorf_w "failed to sign transaction: " e))
    | None => (Some (fst (internal.Transaction_Sign env (internal.signer c) tx)),
               None)
    end.
Proof.
  unfold part_001.SignTransaction.
  destruct (internal.Transaction_Sign env (internal.signer c) tx) as [tx' [e|]];
    reflexivity.
Qed.






(** C9 (as amended).  The two [SignTransaction] versions agree exactly
    when [tx.Sign] returns no error: both then return the signed
    transaction and a nil error.  The version of client.go always returns
    the transaction and a nil error; when [tx.Sign] returns an error, the
    version of part_001 returns a nil transaction and that error wrapped
    in "failed to sign transaction". *)
Theorem C9_SignTransaction_versions_agree_without_sign_error :
  forall (env : internal.Env) (c : internal.SolanaClient) (tx : solana.Transaction),
    internal.SignTransaction env c tx
    = (Some (fst (internal.Transaction_Sign env (internal.signer c) tx)), None)
    /\ (snd (internal.Transaction_Sign env (internal.signer c) tx) = None <->
        internal.SignTransaction env c tx = part_001.SignTransaction env c tx)
    /\ (forall e,
           snd (internal.Transaction_Sign env (internal.signer c) tx) = Some e ->
           part_001.SignTransaction env c tx
           = (None, Some (Errorf_w "failed to sign transaction: " e))).
Proof.
  intros env c tx.
  rewrite SignTransaction_eq, part_001_SignTransaction_eq.
  split; [reflexivity|]. split.
  - destruct (snd (internal.Transaction_Sign env (internal.signer c) tx)).
    + split; discriminate.
    + split; reflexivity.
  - intros e He. rewrite He. reflexivity.
Qed.

(** C9, the claim as stated fails: a transaction that also needs the
    signature of [B].  [tx.Sign] returns an error; client.go's version
    returns the transaction and no error, part_001's returns no
    transaction and the error. *)
Lemma C9_counterexample :
  internal.SignTransaction (Mock.sdk_env "key" Mock.keyfile64 9)
                           Mock.clientA Mock.txAB
  = (Some Mock.txAB, None)
  /\ part_001.SignTransaction (Mock.sdk_env "key" Mock.keyfile64 9)
                              Mock.clientA Mock.txAB
     = (None,
        Some (Errorf_w "failed to sign transaction: "
                (Errorf "signer key not found. Ensure all the signer keys are in the vault"))).
Proof. split; reflexivity. Qed.

(* ================================================================== *)
(** ** Loading the keypair *)

Lemma bind_run {A B : Type} (m : M A) (k : A -> M B) (h : log) :
  bind m k h
  = match m h with
    | (Ok a, h') => k a h'
    | (Err e, h') => (Err e, h')
    | (Panic, h') => (Panic, h')
    end.
Proof. reflexivity. Qed.

Lemma wrap_run {A : Type} (msg : string) (m : M A) (h : log) :
  wrap msg m h
  = match m h with
    | (Err e, h') => (Err (Errorf_w msg e), h')
    | r => r
    end.
Proof. reflexivity. Qed.

(** What [NewSolanaClient] does once the keypair path is set. *)
Lemma NewSolanaClient_with_path (env : internal.Env) (h : log) :
  internal.viper_GetString env "keypair" <> "" ->
  internal.NewSolanaClient env h
  = (match internal.os_ReadFile env h (internal.viper_GetString env "keypair") with
     | Err e => Err (Errorf_w "failed to read keypair file: " e)
     | Panic => Panic
     | Ok keypairBytes =>
         match internal.json_Unmarshal_uint8 env keypairBytes with
         | Err e => Err (Errorf_w "failed to parse keypair file: " e)
         | Panic => Panic
         | Ok secretKey =>
             match internal.PrivateKey_PublicKey env secretKey with
             | None => Panic
             | Some publicKey =>
                 if String.eqb (internal.viper_GetString env "rpc-url") "" then
                   Err (Errorf "RPC URL not set in config")
                 else
                   Ok {| internal.RpcClient :=
                           rpc.New (internal.viper_GetString env "rpc-url"
                                    ++ "?api-key="
                                    ++ internal.viper_GetString env "rpc-api-key")%string;
                         internal.PublicKey := publicKey;
                         internal.PrivateKey := secretKey |}
             end
         end
     end,
     h ++ [EvReadFile (internal.viper_GetString env "keypair")]).
Proof.
  intros Hpath. apply String.eqb_neq in Hpath.
  unfold internal.NewSolanaClient. rewrite Hpath.
  unfold bind, wrap, call, lift, fail, panic, ret.
  destruct (internal.os_ReadFile env h _) as [keypairBytes | e |];
    try reflexivity.
  destruct (internal.json_Unmarshal_uint8 env keypairBytes) as [secretKey | e |];
    try reflexivity.
  destruct (internal.PrivateKey_PublicKey env secretKey); [|reflexivity].
  destruct (String.eqb (internal.viper_GetString env "rpc-url") "");
    reflexivity.
Qed.

(** C3 (as amended).  [NewSolanaClient] returns an error and no client:
    "keypair path not set in config" when the path is empty, before
    anything is called; the read error wrapped in "failed to read keypair
    file" when the file cannot be read; the JSON error wrapped in "failed
    to parse keypair file" when the text does not decode into a byte
    array.  A byte array that did decode becomes the private key as it
    is: from there on the only error is "RPC URL not set in config", so
    no error is returned for an array that is not a key encoding. *)
Theorem C3_NewSolanaClient_failures :
  forall (env : internal.Env) (h : log),
    let path := internal.viper_GetString env "keypair" in
    let run := internal.NewSolanaClient env h in
    (path = "" -> run = (Err (Errorf "keypair path not set in config"), h))
    /\ (forall e,
           path <> "" ->
           internal.os_ReadFile env h path = Err e ->
           run = (Err (Errorf_w "failed to read keypair file: " e),
                  h ++ [EvReadFile path]))
    /\ (forall keypairBytes e,
           path <> "" ->
           internal.os_ReadFile env h path = Ok keypairBytes ->
           internal.json_Unmarshal_uint8 env keypairBytes = Err e ->
           run = (Err (Errorf_w "failed to parse keypair file: " e),
                  h ++ [EvReadFile path]))
    /\ (forall keypairBytes secretKey,
           path <> "" ->
           internal.os_ReadFile env h path = Ok keypairBytes ->
           internal.json_Unmarshal_uint8 env keypairBytes = Ok secretKey ->
           fst run = Panic
           \/ fst run = Err (Errorf "RPC URL not set in config")
           \/ exists client,
               fst run = Ok client /\ internal.PrivateKey client = secretKey).
Proof.
  intros env h path run. subst path run. split; [|split; [|split]].
  - intros Hpath. unfold internal.NewSolanaClient. rewrite Hpath. reflexivity.
  - intros e Hpath Hread.
    rewrite (NewSolanaClient_with_path env h Hpath), Hread. reflexivity.
  - intros keypairBytes e Hpath Hread Hjson.
    rewrite (NewSolanaClient_with_path env h Hpath), Hread, Hjson. reflexivity.
  - intros keypairBytes secretKey Hpath Hread Hjson.
    rewrite (NewSolanaClient_with_path env h Hpath), Hread, Hjson. simpl.
    destruct (internal.PrivateKey_PublicKey env secretKey) as [publicKey|];
      [|left; reflexivity].
    destruct (String.eqb (internal.viper_GetString env "rpc-url") "");
      [right; left; reflexivity|].
    right; right. eexists. split; reflexivity.
Qed.

(** C3, the claim as stated fails for a byte array that is not a key
    encoding.  A file holding three bytes decodes, and the call panics
    inside [PublicKey()] instead of returning an error; a file holding
    forty bytes decodes, and a client with that forty-byte private key is
    returned. *)
Lemma C3_counterexample :
  internal.json_Unmarshal_uint8 (Mock.sdk_env "key" "[1,2,3]" 9) "[1,2,3]"
  = Ok [Byte.x01; Byte.x02; Byte.x03]
  /\ internal.NewSolanaClient (Mock.sdk_env "key" "[1,2,3]" 9) []
     = (Panic, [EvReadFile Mock.keypair_path])
  /\ exists client,
      fst (internal.NewSolanaClient (Mock.sdk_env "key" Mock.keyfile40 9) [])
      = Ok client
      /\ List.length (internal.PrivateKey client) = 40%nat.
Proof.
  split; [reflexivity|]. split; [reflexivity|].
  eexists. split; reflexivity.
Qed.

(* ================================================================== *)
(** ** The status of the API's answer *)

Lemma no_HTTP_in (pre post : log) (req : http.Request) :
  Forall not_HTTP (pre ++ EvHTTP req :: post) -> False.
Proof.
  intros H. apply Forall_app in H. destruct H as [_ H].
  inversion H as [|ev l Hev Hl]. exact Hev.
Qed.

Lemma reads_file_not_HTTP (A : log) : Forall reads_file A -> Forall not_HTTP A.
Proof.
  apply Forall_impl. intros [] H; simpl in *; auto.
Qed.

(** A log with one HTTP call splits around it in one way only. *)
Lemma HTTP_split_unique (A B : log) (req0 : http.Request) :
  Forall not_HTTP A -> Forall not_HTTP B ->
  forall (pre post : log) (req : http.Request),
    pre ++ EvHTTP req :: post = A ++ EvHTTP req0 :: B ->
    pre = A /\ req = req0 /\ post = B.
Proof.
  intros HA HB. induction A as [|a A IH]; intros pre post req Heq.
  - destruct pre as [|p pre]; simpl in Heq.
    + injection Heq as Hreq Hpost. subst. auto.
    + injection Heq as Hp Hrest. subst B.
      exfalso. exact (no_HTTP_in _ _ _ HB).
  - inversion HA as [|a' A' Ha HA']. subst.
    destruct pre as [|p pre]; simpl in Heq.
    + injection Heq as Ha' _. subst a. contradiction.
    + injection Heq as Hp Hrest. subst p.
      destruct (IH HA' pre post req Hrest) as [H1 [H2 H3]].
      subst. auto.
Qed.

Lemma HandleB64Transactions_no_HTTP (env : internal.Env)
      (c : internal.SolanaClient) (b64_txs : list string) :
  emits not_HTTP (internal.HandleB64Transactions env c b64_txs).
Proof.
  unfold internal.HandleB64Transactions, internal.handle_one,
    internal.call_SignTransaction, internal.SendTransaction.
  emits_auto.
Qed.

Lemma wrap_lift_run {A : Type} (msg : string) (o : outcome A) (h : log) :
  wrap msg (lift o) h
  = (match o with Err e => Err (Errorf_w msg e) | r => r end, h).
Proof. destruct o; reflexivity. Qed.

Lemma wrap_call_run {A : Type} (msg : string) (ev : event)
      (answer : log -> outcome A) (h : log) :
  wrap msg (call ev answer) h
  = (match answer h with Err e => Err (Errorf_w msg e) | r => r end, h ++ [ev]).
Proof. unfold wrap, call. destruct (answer h); reflexivity. Qed.

(** The part both commands share, from the answer of the API on: the
    status test, the decoding of the body and the handling of the batch. *)
Ltac after_answer r :=
  match goal with
  | |- context [cmd.http_Do _ (?h ++ ?A) r] =>
      destruct (cmd.http_Do _ (h ++ A) r) as [resp | e |];
      cbv beta iota zeta;
      [| rewrite <- app_assoc; reflexivity ..];
      destruct (Z.eqb (http.StatusCode resp) http.StatusOK);
      unfold negb; cbv beta iota;
      [| unfold fail; rewrite <- app_assoc; reflexivity];
      rewrite bind_run, wrap_lift_run;
      first
        [ destruct (cmd.json_Decode_DepositResponse _ _) as [response | e |]
        | destruct (cmd.json_Decode_WithdrawResponse _ _) as [response | e |] ];
      cbv beta iota;
      [| exists []; simpl; rewrite <- app_assoc;
         split; [reflexivity|]; split; [constructor | discriminate] ..];
      match goal with
      | |- context [internal.HandleB64Transactions ?s ?c ?txs] =>
          destruct (emits_wrap not_HTTP "failed to handle transactions: " _
                      (HandleB64Transactions_no_HTTP s c txs)
                      ((h ++ A) ++ [EvHTTP r]))
            as [B [HB HFB]];
          exists B; rewrite HB; repeat rewrite <- app_assoc;
          split; [reflexivity|]; split; [exact HFB|];
          intros resp'; unfold wrap;
          destruct (internal.HandleB64Transactions s c txs _) as [[u | e |] h2];
          discriminate
      end
  end.

Lemma depositCmd_RunE_api_shape (env : cmd.Env) (fl : cmd.Flags) :
  api_shape env (cmd.depositCmd_RunE env fl).
Proof.
  intros h. unfold cmd.depositCmd_RunE. rewrite bind_run.
  destruct (emits_wrap reads_file "failed to create client: " _
              (NewSolanaClient_emits reads_file (cmd.sdk env) (fun _ => I)) h)
    as [A [HA HFA]].
  destruct (wrap "failed to create client: "
                 (internal.NewSolanaClient (cmd.sdk env)) h)
    as [[client | e |] h1]; simpl in HA; subst h1; cbv beta iota zeta;
    [| left; exists A; auto ..].
  rewrite bind_run, wrap_lift_run.
  destruct (cmd.json_Marshal_DepositRequest env _) as [jsonData | e |];
    cbv beta iota zeta; [| left; exists A; auto ..].
  rewrite bind_run, wrap_lift_run. unfold cmd.http_NewRequest.
  destruct (cmd.http_NewRequest_error env _ _);
    cbv beta iota zeta; [left; exists A; auto|].
  rewrite bind_run, wrap_call_run.
  match goal with
  | |- context [cmd.http_Do env (h ++ A) ?r] =>
      right; exists A, r; split; [exact HFA|]; after_answer r
  end.
Qed.

Lemma withdrawCmd_RunE_api_shape (env : cmd.Env) (fl : cmd.Flags) :
  api_shape env (cmd.withdrawCmd_RunE env fl).
Proof.
  intros h. unfold cmd.withdrawCmd_RunE. rewrite bind_run.
  destruct (emits_wrap reads_file "failed to create client: " _
              (NewSolanaClient_emits reads_file (cmd.sdk env) (fun _ => I)) h)
    as [A [HA HFA]].
  destruct (wrap "failed to create client: "
                 (internal.NewSolanaClient (cmd.sdk env)) h)
    as [[client | e |] h1]; simpl in HA; subst h1; cbv beta iota zeta;
    [| left; exists A; auto ..].
  rewrite bind_run, wrap_lift_run.
  destruct (cmd.json_Marshal_WithdrawRequest env _) as [jsonData | e |];
    cbv beta iota zeta; [| left; exists A; auto ..].
  rewrite bind_run, wrap_lift_run. unfold cmd.http_NewRequest.
  destruct (cmd.http_NewRequest_error env _ _);
    cbv beta iota zeta; [left; exists A; auto|].
  rewrite bind_run, wrap_call_run.
  match goal with
  | |- context [cmd.http_Do env (h ++ A) ?r] =>
      right; exists A, r; split; [exact HFA|]; after_answer r
  end.
Qed.

Lemma execute_api_shape (env : cmd.Env) (c : cmd.Command) (fl : cmd.Flags) :
  api_shape env (cmd.RunE c fl) -> api_shape env (cmd.execute c fl).
Proof.
  intros Hrun h. unfold cmd.execute.
  assert (Hstop : forall r : outcome unit,
             exists A, snd (r, h) = h ++ A /\ Forall reads_file A)
    by (intros r; exists []; simpl; rewrite app_nil_r; auto).
  rewrite bind_run.
  destruct (cmd.PreRunE c) as [pre|]; unfold lift, ret.
  - destruct (pre fl) as [[] | e |]; [| left; apply Hstop ..].
    rewrite bind_run.
    destruct (cmd.ValidateRequiredFlags c fl) as [[] | e |];
      [apply Hrun | left; apply Hstop ..].
  - rewrite bind_run.
    destruct (cmd.ValidateRequiredFlags c fl) as [[] | e |];
      [apply Hrun | left; apply Hstop ..].
Qed.

(** From the shape to the answer: if the log shows the request and the
    API answered it with [resp], the status of [resp] decides. *)
Lemma api_shape_status (env : cmd.Env) (run : M unit) :
  api_shape env run ->
  forall (h pre post : log) (req : http.Request) (resp : http.Response),
    snd (run h) = h ++ pre ++ EvHTTP req :: post ->
    cmd.http_Do env (h ++ pre) req = Ok resp ->
    (http.StatusCode resp <> http.StatusOK ->
     fst (run h) = Err (cmd.status_error resp)
     /\ Forall reads_file pre /\ post = [])
    /\ (http.StatusCode resp = http.StatusOK ->
        forall resp', fst (run h) <> Err (cmd.status_error resp')).
Proof.
  intros Hshape h pre post req resp Hlog Hdo.
  destruct (Hshape h) as [[A [HA HR]] | [A [req0 [HR Hcase]]]];
    pose proof (reads_file_not_HTTP A HR) as HFA.
  - rewrite HA in Hlog. apply app_inv_head in Hlog. subst A.
    exfalso. exact (no_HTTP_in _ _ _ HFA).
  - destruct (cmd.http_Do env (h ++ A) req0) as [resp0 | e |] eqn:Hdo0.
    + destruct (Z.eqb (http.StatusCode resp0) http.StatusOK) eqn:Hst.
      * destruct Hcase as [B [HB [HFB Hne]]].
        rewrite HB in Hlog. apply app_inv_head in Hlog. symmetry in Hlog.
        destruct (HTTP_split_unique A B req0 HFA HFB pre post req Hlog)
          as [Hpre [Hreq Hpost]].
        subst pre req post. rewrite Hdo0 in Hdo. injection Hdo as Hresp.
        subst resp0. apply Z.eqb_eq in Hst.
        split; [intros Hno; contradiction | intros _; exact Hne].
      * rewrite Hcase in Hlog. simpl in Hlog.
        apply app_inv_head in Hlog. symmetry in Hlog.
        destruct (HTTP_split_unique A [] req0 HFA (Forall_nil _)
                                    pre post req Hlog)
          as [Hpre [Hreq Hpost]].
        subst pre req post. rewrite Hdo0 in Hdo. injection Hdo as Hresp.
        subst resp0. apply Z.eqb_neq in Hst.
        split; [intros _; rewrite Hcase; auto | intros Hyes; contradiction].
    + rewrite Hcase in Hlog. simpl in Hlog.
      apply app_inv_head in Hlog. symmetry in Hlog.
      destruct (HTTP_split_unique A [] req0 HFA (Forall_nil _)
                                  pre post req Hlog)
        as [Hpre [Hreq Hpost]].
      subst pre req post. rewrite Hdo0 in Hdo. discriminate Hdo.
    + rewrite Hcase in Hlog. simpl in Hlog.
      apply app_inv_head in Hlog. symmetry in Hlog.
      destruct (HTTP_split_unique A [] req0 HFA (Forall_nil _)
                                  pre post req Hlog)
        as [Hpre [Hreq Hpost]].
      subst pre req post. rewrite Hdo0 in Hdo. discriminate Hdo.
Qed.

(** C5 (as amended).  In a deposit or withdraw run whose request the API
    answered with [resp]: if the status is anything other than 200, the
    command returns the error "unexpected status code" carrying that
    status, the calls before the request are file reads and the request
    is the last call in the log - nothing was decoded, signed or
    submitted; if the status is 200, the command does not return that
    error. *)
Theorem C5_status_other_than_200 :
  forall (env : cmd.Env) (c : cmd.Command) (fl : cmd.Flags)
         (h pre post : log) (req : http.Request) (resp : http.Response),
    c = cmd.depositCmd env \/ c = cmd.withdrawCmd env ->
    snd (cmd.execute c fl h) = h ++ pre ++ EvHTTP req :: post ->
    cmd.http_Do env (h ++ pre) req = Ok resp ->
    (http.StatusCode resp <> http.StatusOK ->
     fst (cmd.execute c fl h) = Err (cmd.status_error resp)
     /\ Forall reads_file pre /\ post = [])
    /\ (http.StatusCode resp = http.StatusOK ->
        forall resp', fst (cmd.execute c fl h) <> Err (cmd.status_error resp')).
Proof.
  intros env c fl h pre post req resp Hc.
  apply api_shape_status, execute_api_shape.
  destruct Hc as [Hc | Hc]; subst c; simpl.
  - apply depositCmd_RunE_api_shape.
  - apply withdrawCmd_RunE_api_shape.
Qed.

Lemma C5_status_other_than_200_witness :
  fst (cmd.execute (cmd.depositCmd (Mock.env "key" Mock.keyfile64 9 500 "1A"))
                   (Mock.flags Mock.five false ["amount"; "mint"]) [])
  = Err (Errorf "unexpected status code: 500").
Proof.
  pose (env := Mock.env "key" Mock.keyfile64 9 500 "1A").
  pose (fl := Mock.flags Mock.five false ["amount"; "mint"]).
  pose (log500 := snd (cmd.execute (cmd.depositCmd env) fl [])).
  pose (req := match nth 1 log500 (EvPrintln "") with
               | EvHTTP r => r
               | _ => {| http.Method := ""; http.URL := "";
                         http.Header := []; http.Body := None |}
               end).
  destruct (C5_status_other_than_200
              env (cmd.depositCmd env) fl []
              [EvReadFile Mock.keypair_path] [] req
              {| http.StatusCode := 500; http.ResponseBody := "1A" |}
              (or_introl eq_refl) eq_refl eq_refl)
    as [Hother _].
  apply Hother. discriminate.
Defined.

(** C5, the claim as stated fails in its last part: 201 is a 2xx status,
    and a deposit whose request is answered with it returns the status
    error. *)
Lemma C5_counterexample :
  (200 <= 201 < 300)%Z
  /\ fst (cmd.execute (cmd.depositCmd (Mock.env "key" Mock.keyfile64 9 201 "1A"))
                      (Mock.flags Mock.five false ["amount"; "mint"]) [])
     = Err (Errorf "unexpected status code: 201")
  /\ fst (cmd.execute (cmd.withdrawCmd (Mock.env "key" Mock.keyfile64 9 201 "1A"))
                      (Mock.flags Mock.five false ["amount"; "mint"]) [])
     = Err (Errorf "unexpected status code: 201").
Proof. split; [lia|]. split; reflexivity. Qed.

(* ================================================================== *)
(** ** The API key *)

(** [accountCmd] tests the key before its request: with an empty key it
    makes no network call and does not succeed, and once the client and
    the request value exist it returns the error naming the key. *)
Lemma accountCmd_requires_api_key (env : cmd.Env) (fl : cmd.Flags) (h : log) :
  internal.viper_GetString (cmd.sdk env) "lulo-api-key" = "" ->
  (exists A, snd (cmd.accountCmd_RunE env fl h) = h ++ A
             /\ Forall not_network_call A)
  /\ fst (cmd.accountCmd_RunE env fl h) <> Ok tt
  /\ (forall client h1,
         internal.NewSolanaClient (cmd.sdk env) h = (Ok client, h1) ->
         cmd.http_NewRequest_error env "GET" "https://api.flexlend.fi/account" = None ->
         cmd.accountCmd_RunE env fl h
         = (Err (Errorf "FLEXLEND_API_KEY environment variable not set"), h1)).
Proof.
  intros Hkey. unfold cmd.accountCmd_RunE. rewrite Hkey. simpl String.eqb.
  cbv beta iota zeta. rewrite bind_run.
  destruct (emits_wrap not_network_call "failed to create client: " _
              (NewSolanaClient_emits not_network_call (cmd.sdk env)
                                     (fun _ => eq_refl)) h)
    as [A [HA HFA]].
  rewrite wrap_run in HA |- *.
  destruct (internal.NewSolanaClient (cmd.sdk env) h) as [[client | e |] h1];
    simpl in HA; subst h1; cbv beta iota.
  - rewrite bind_run, wrap_lift_run. unfold cmd.http_NewRequest.
    destruct (cmd.http_NewRequest_error env _ _); cbv beta iota; unfold fail.
    + split; [exists A; auto|]. split; [discriminate|].
      intros client' h1 Heq Hnone. discriminate Hnone.
    + split; [exists A; auto|]. split; [discriminate|].
      intros client' h1 Heq _. injection Heq as _ Hh. subst h1. reflexivity.
  - split; [exists A; auto|]. split; [discriminate|].
    intros client' h1 Heq. discriminate Heq.
  - split; [exists A; auto|]. split; [discriminate|].
    intros client' h1 Heq. discriminate Heq.
Qed.

(** C2, at the failing input: no lulo-api-key configured, a valid keypair,
    [--amount 5 --mint MINT].  [accountCmd] stops with the error naming
    the key after reading the keypair.  [depositCmd] and [withdrawCmd]
    have no such test: each sends its POST with an empty [x-api-key]
    header and, the API answering 200, goes on to submit the
    transaction. *)
Theorem C2_deposit_withdraw_send_request_without_api_key :
  let env := Mock.env "" Mock.keyfile64 9 200 "1A" in
  let fl := Mock.flags Mock.five false ["amount"; "mint"] in
  internal.viper_GetString (cmd.sdk env) "lulo-api-key" = ""
  /\ cmd.execute (cmd.accountCmd env) fl []
     = (Err (Errorf "FLEXLEND_API_KEY environment variable not set"),
        [EvReadFile Mock.keypair_path])
  /\ (exists req post,
         snd (cmd.execute (cmd.depositCmd env) fl [])
         = EvReadFile Mock.keypair_path :: EvHTTP req :: post
         /\ http.Header_Get "x-api-key" (http.Header req) = Some ""
         /\ existsb is_network_call post = true)
  /\ fst (cmd.execute (cmd.depositCmd env) fl []) = Ok tt
  /\ (exists req post,
         snd (cmd.execute (cmd.withdrawCmd env) fl [])
         = EvReadFile Mock.keypair_path :: EvHTTP req :: post
         /\ http.Header_Get "x-api-key" (http.Header req) = Some ""
         /\ existsb is_network_call post = true)
  /\ fst (cmd.execute (cmd.withdrawCmd env) fl []) = Ok tt.
Proof.
  cbv zeta. split; [reflexivity|]. split; [reflexivity|].
  split; [eexists; eexists; split; [reflexivity | split; reflexivity]|].
  split; [reflexivity|].
  split; [eexists; eexists; split; [reflexivity | split; reflexivity]|].
  reflexivity.
Qed.

(* ================================================================== *)
(** ** Rules for [yields] *)

Section YieldsRules.

Variable P : event -> Prop.

Lemma yields_ret {A : Type} (Q : A -> Prop) (a : A) :
  Q a -> yields P Q (ret a).
Proof.
  intros HQ h. exists []. simpl. rewrite app_nil_r.
  repeat split; auto. intros a' Ha. injection Ha as <-. exact HQ.
Qed.

Lemma yields_fail {A : Type} (Q : A -> Prop) (e : error) :
  yields P Q (fail e).
Proof.
  intros h. exists []. simpl. rewrite app_nil_r.
  repeat split; auto. discriminate.
Qed.

Lemma yields_panic {A : Type} (Q : A -> Prop) : yields P Q panic.
Proof.
  intros h. exists []. simpl. rewrite app_nil_r.
  repeat split; auto. discriminate.
Qed.

Lemma yields_lift {A : Type} (Q : A -> Prop) (o : outcome A) :
  (forall a, o = Ok a -> Q a) -> yields P Q (lift o).
Proof.
  intros HQ h. exists []. simpl. rewrite app_nil_r. repeat split; auto.
Qed.

Lemma yields_call {A : Type} (Q : A -> Prop) (ev : event)
      (answer : log -> outcome A) :
  P ev -> (forall h a, answer h = Ok a -> Q a) -> yields P Q (call ev answer).
Proof.
  intros Hev HQ h. exists [ev]. simpl. repeat split; auto. apply HQ.
Qed.

Lemma yields_wrap {A : Type} (Q : A -> Prop) (msg : string) (m : M A) :
  yields P Q m -> yields P Q (wrap msg m).
Proof.
  intros Hm h. destruct (Hm h) as [t [Ht [HP HQ]]]. exists t.
  unfold wrap. destruct (m h) as [[a | e |] h']; simpl in *;
    repeat split; auto; discriminate.
Qed.

Lemma yields_bind {A B : Type} (Q : A -> Prop) (R : B -> Prop)
      (m : M A) (k : A -> M B) :
  yields P Q m -> (forall a, Q a -> yields P R (k a)) -> yields P R (bind m k).
Proof.
  intros Hm Hk h. destruct (Hm h) as [t [Ht [HP HQ]]].
  unfold bind. destruct (m h) as [[a | e |] h']; simpl in Ht; subst h'.
  - destruct (Hk a (HQ a eq_refl) (h ++ t)) as [t' [Ht' [HP' HR]]].
    exists (t ++ t'). rewrite Ht', app_assoc.
    repeat split; auto. apply Forall_app; auto.
  - exists t. repeat split; auto. discriminate.
  - exists t. repeat split; auto. discriminate.
Qed.

Lemma yields_weaken {A : Type} (Q Q' : A -> Prop) (m : M A) :
  (forall a, Q a -> Q' a) -> yields P Q m -> yields P Q' m.
Proof.
  intros HQQ Hm h. destruct (Hm h) as [t [Ht [HP HQ]]].
  exists t. repeat split; auto.
Qed.

Lemma yields_for_range {A : Type} (xs : list A) (body : A -> M unit) :
  (forall x, yields P (fun _ => True) (body x)) ->
  yields P (fun _ => True) (for_range xs body).
Proof.
  intros Hbody. induction xs as [|x xs IH]; simpl.
  - apply yields_ret. exact I.
  - apply yields_bind with (Q := fun _ => True);
      [apply Hbody | intros _ _; exact IH].
Qed.

Lemma yields_emits {A : Type} (Q : A -> Prop) (m : M A) :
  yields P Q m -> emits P m.
Proof.
  intros Hm h. destruct (Hm h) as [t [Ht [HP _]]]. exists t. auto.
Qed.

Lemma emits_yields {A : Type} (m : M A) :
  emits P m -> yields P (fun _ => True) m.
Proof.
  intros Hm h. destruct (Hm h) as [t [Ht HP]]. exists t. auto.
Qed.

End YieldsRules.

(* ================================================================== *)
(** ** The client a command works with *)

Lemma NewSolanaClient_log (env : internal.Env) (h : log) :
  snd (internal.NewSolanaClient env h) = h
  \/ snd (internal.NewSolanaClient env h)
     = h ++ [EvReadFile (internal.viper_GetString env "keypair")].
Proof.
  destruct (String.eqb (internal.viper_GetString env "keypair") "") eqn:E.
  - left. unfold internal.NewSolanaClient. rewrite E. reflexivity.
  - right. apply String.eqb_neq in E.
    rewrite (NewSolanaClient_with_path env h E). reflexivity.
Qed.

Lemma NewSolanaClient_Ok (env : internal.Env) (h : log)
      (c : internal.SolanaClient) :
  fst (internal.NewSolanaClient env h) = Ok c ->
  loaded env c
  /\ snd (internal.NewSolanaClient env h)
     = h ++ [EvReadFile (internal.viper_GetString env "keypair")]
  /\ exists keypairBytes,
      internal.os_ReadFile env h (internal.viper_GetString env "keypair")
      = Ok keypairBytes
      /\ internal.json_Unmarshal_uint8 env keypairBytes
         = Ok (internal.PrivateKey c).
Proof.
  destruct (String.eqb (internal.viper_GetString env "keypair") "") eqn:E.
  - unfold internal.NewSolanaClient. rewrite E. discriminate.
  - apply String.eqb_neq in E.
    rewrite (NewSolanaClient_with_path env h E). simpl.
    destruct (internal.os_ReadFile env h _) as [keypairBytes | e |] eqn:Hread;
      try discriminate.
    destruct (internal.json_Unmarshal_uint8 env keypairBytes)
      as [secretKey | e |] eqn:Hjson; try discriminate.
    destruct (internal.PrivateKey_PublicKey env secretKey) as [publicKey|] eqn:Hpub;
      try discriminate.
    destruct (String.eqb (internal.viper_GetString env "rpc-url") "") eqn:Eurl;
      try discriminate.
    apply String.eqb_neq in Eurl.
    intros Hc. injection Hc as <-. simpl.
    split; [repeat split; auto|]. split; [reflexivity|].
    exists keypairBytes. auto.
Qed.

Lemma NewSolanaClient_yields_loaded (env : internal.Env) :
  yields reads_file (loaded env) (internal.NewSolanaClient env).
Proof.
  intros h.
  destruct (NewSolanaClient_log env h) as [Hlog | Hlog].
  - exists []. rewrite Hlog, app_nil_r.
    split; [reflexivity|]. split; [constructor|].
    intros c Hc. apply (NewSolanaClient_Ok env h c Hc).
  - exists [EvReadFile (internal.viper_GetString env "keypair")].
    split; [exact Hlog|]. split; [repeat constructor|].
    intros c Hc. apply (NewSolanaClient_Ok env h c Hc).
Qed.

(** X1.  Whatever the configuration and the file system, [NewSolanaClient]
    adds at most one call to the log, the read of the configured keypair
    file.  A client it returns was made from that file: its private key is
    the byte array the file decoded to, its public key is the one
    [PublicKey()] gives for that private key, and its endpoint is the
    non-empty RPC URL followed by "?api-key=" and the RPC key. *)
Theorem X1_NewSolanaClient_returns_loaded_client :
  forall (env : internal.Env) (h : log),
    let path := internal.viper_GetString env "keypair" in
    let run := internal.NewSolanaClient env h in
    (snd run = h \/ snd run = h ++ [EvReadFile path])
    /\ forall c,
        fst run = Ok c ->
        snd run = h ++ [EvReadFile path]
        /\ (exists keypairBytes,
               internal.os_ReadFile env h path = Ok keypairBytes
               /\ internal.json_Unmarshal_uint8 env keypairBytes
                  = Ok (internal.PrivateKey c))
        /\ internal.PrivateKey_PublicKey env (internal.PrivateKey c)
           = Some (internal.PublicKey c)
        /\ internal.viper_GetString env "rpc-url" <> ""
        /\ internal.RpcClient c
           = (internal.viper_GetString env "rpc-url" ++ "?api-key="
              ++ internal.viper_GetString env "rpc-api-key")%string
        /\ internal.signer c (internal.WalletPubKey c)
           = Some (internal.PrivateKey c).
Proof.
  intros env h path run. subst path run.
  split; [apply NewSolanaClient_log|].
  intros c Hc.
  destruct (NewSolanaClient_Ok env h c Hc)
    as [[Hpath [Hurl [Hpub Hrpc]]] [Hlog Hfile]].
  repeat split; auto. apply signer_own_key.
Qed.




(** A command either stops in cobra's checks, with the log untouched, or
    is its [RunE]. *)
Lemma execute_cases (c : cmd.Command) (fl : cmd.Flags) (h : log) :
  cmd.execute c fl h = cmd.RunE c fl h
  \/ exists r, cmd.execute c fl h = (r, h) /\ r <> Ok tt.
Proof.
  unfold cmd.execute. rewrite bind_run.
  destruct (cmd.PreRunE c) as [pre|]; unfold lift, ret.
  - destruct (pre fl) as [[] | e |].
    + rewrite bind_run.
      destruct (cmd.ValidateRequiredFlags c fl) as [[] | e |];
        [left; reflexivity | right; eexists; split; [reflexivity | discriminate] ..].
    + right. eexists. split; [reflexivity | discriminate].
    + right. eexists. split; [reflexivity | discriminate].
  - rewrite bind_run.
    destruct (cmd.ValidateRequiredFlags c fl) as [[] | e |];
      [left; reflexivity | right; eexists; split; [reflexivity | discriminate] ..].
Qed.






(* ================================================================== *)
(** ** The account command *)





(* ================================================================== *)
(** ** The request of deposit and withdraw, and what surrounds it *)

Lemma HandleB64Transactions_ledger_calls (env : internal.Env)
      (c : internal.SolanaClient) (b64_txs : list string) :
  emits ledger_call (internal.HandleB64Transactions env c b64_txs).
Proof.
  unfold internal.HandleB64Transactions, internal.handle_one,
    internal.call_SignTransaction, internal.SendTransaction.
  emits_auto.
Qed.

(** A run that stopped with the calls [R ++ [EvHTTP req]]. *)
Ltac request_in_the_middle :=
  match goal with
  | |- reads_then_request_then_ledger (?x :: EvHTTP _ :: ?B) _ =>
      right; exists [x], B; split; [reflexivity|]; split
  end.

Ltac stops_after_request :=
  repeat rewrite <- app_assoc; simpl;
  eexists; split; [reflexivity|];
  request_in_the_middle; repeat constructor.

Ltac stops_before_request :=
  repeat rewrite <- app_assoc; simpl;
  eexists; split; [reflexivity|];
  left; repeat constructor.

(** The part both commands share, from the answer of the API on. *)
Ltac from_answer_on :=
  match goal with
  | |- context [cmd.http_Do ?env ?h0 ?r] =>
      destruct (cmd.http_Do env h0 r) as [resp | e |];
      cbv beta iota zeta; [| stops_after_request ..];
      destruct (Z.eqb (http.StatusCode resp) http.StatusOK);
      unfold negb; cbv beta iota; [| unfold fail; stops_after_request];
      rewrite bind_run, wrap_lift_run;
      first
        [ destruct (cmd.json_Decode_DepositResponse _ _) as [response | e |]
        | destruct (cmd.json_Decode_WithdrawResponse _ _) as [response | e |] ];
      cbv beta iota; [| stops_after_request ..];
      match goal with
      | |- context [internal.HandleB64Transactions ?s ?c ?txs] =>
          destruct (emits_wrap ledger_call "failed to handle transactions: " _
                      (HandleB64Transactions_ledger_calls s c txs) (h0 ++ [EvHTTP r]))
            as [B [HB HFB]];
          rewrite HB; repeat rewrite <- app_assoc; simpl;
          eexists; split; [reflexivity|];
          request_in_the_middle; [repeat constructor | exact HFB]
      end
  end.

Lemma depositCmd_RunE_calls (env : cmd.Env) (fl : cmd.Flags) (h : log) :
  exists A,
    snd (cmd.depositCmd_RunE env fl h) = h ++ A
    /\ (Forall reads_file A
        \/ exists c body,
            loaded (cmd.sdk env) c
            /\ cmd.json_Marshal_DepositRequest env (cmd.deposit_request env c fl)
               = Ok body
            /\ reads_then_request_then_ledger
                 A (generate_request env "deposit" c body)).
Proof.
  unfold cmd.depositCmd_RunE. rewrite bind_run, wrap_run.
  pose proof (NewSolanaClient_log (cmd.sdk env) h) as Hlog.
  pose proof (NewSolanaClient_Ok (cmd.sdk env) h) as Hok.
  destruct (internal.NewSolanaClient (cmd.sdk env) h) as [[c | e |] h1];
    simpl in Hlog, Hok; cbv beta iota zeta.
  - destruct (Hok c eq_refl) as [Hloaded [Hh1 _]]. subst h1. clear Hlog Hok.
    rewrite bind_run, wrap_lift_run.
    destruct (cmd.json_Marshal_DepositRequest env _) as [body | e |] eqn:Hbody;
      cbv beta iota zeta; [| stops_before_request ..].
    assert (Hright :
              forall A,
                reads_then_request_then_ledger
                  A (generate_request env "deposit" c body) ->
                Forall reads_file A
                \/ exists c0 body0,
                    loaded (cmd.sdk env) c0
                    /\ cmd.json_Marshal_DepositRequest
                         env (cmd.deposit_request env c0 fl) = Ok body0
                    /\ reads_then_request_then_ledger
                         A (generate_request env "deposit" c0 body0))
      by (intros A HA; right; exists c, body; auto).
    rewrite bind_run, wrap_lift_run. unfold cmd.http_NewRequest.
    destruct (cmd.http_NewRequest_error env _ _); cbv beta iota zeta;
      [stops_before_request|].
    rewrite bind_run, wrap_call_run.
    match goal with
    | |- exists A, ?lhs = _ /\ _ =>
        cut (exists A, lhs = h ++ A
                       /\ reads_then_request_then_ledger
                            A (generate_request env "deposit" c body));
          [intros [A [HA HR]]; exists A; split; [exact HA | apply Hright, HR]|]
    end.
    from_answer_on.
  - destruct Hlog as [H | H]; subst h1.
    + exists []. simpl. rewrite app_nil_r. auto.
    + stops_before_request.
  - destruct Hlog as [H | H]; subst h1.
    + exists []. simpl. rewrite app_nil_r. auto.
    + stops_before_request.
Qed.

Lemma withdrawCmd_RunE_calls (env : cmd.Env) (fl : cmd.Flags) (h : log) :
  exists A,
    snd (cmd.withdrawCmd_RunE env fl h) = h ++ A
    /\ (Forall reads_file A
        \/ exists c body,
            loaded (cmd.sdk env) c
            /\ cmd.json_Marshal_WithdrawRequest env (cmd.withdraw_request env c fl)
               = Ok body
            /\ reads_then_request_then_ledger
                 A (generate_request env "withdraw" c body)).
Proof.
  unfold cmd.withdrawCmd_RunE. rewrite bind_run, wrap_run.
  pose proof (NewSolanaClient_log (cmd.sdk env) h) as Hlog.
  pose proof (NewSolanaClient_Ok (cmd.sdk env) h) as Hok.
  destruct (internal.NewSolanaClient (cmd.sdk env) h) as [[c | e |] h1];
    simpl in Hlog, Hok; cbv beta iota zeta.
  - destruct (Hok c eq_refl) as [Hloaded [Hh1 _]]. subst h1. clear Hlog Hok.
    rewrite bind_run, wrap_lift_run.
    destruct (cmd.json_Marshal_WithdrawRequest env _) as [body | e |] eqn:Hbody;
      cbv beta iota zeta; [| stops_before_request ..].
    assert (Hright :
              forall A,
                reads_then_request_then_ledger
                  A (generate_request env "withdraw" c body) ->
                Forall reads_file A
                \/ exists c0 body0,
                    loaded (cmd.sdk env) c0
                    /\ cmd.json_Marshal_WithdrawRequest
                         env (cmd.withdraw_request env c0 fl) = Ok body0
                    /\ reads_then_request_then_ledger
                         A (generate_request env "withdraw" c0 body0))
      by (intros A HA; right; exists c, body; auto).
    rewrite bind_run, wrap_lift_run. unfold cmd.http_NewRequest.
    destruct (cmd.http_NewRequest_error env _ _); cbv beta iota zeta;
      [stops_before_request|].
    rewrite bind_run, wrap_call_run.
    match goal with
    | |- exists A, ?lhs = _ /\ _ =>
        cut (exists A, lhs = h ++ A
                       /\ reads_then_request_then_ledger
                            A (generate_request env "withdraw" c body));
          [intros [A [HA HR]]; exists A; split; [exact HA | apply Hright, HR]|]
    end.
    from_answer_on.
  - destruct Hlog as [H | H]; subst h1.
    + exists []. simpl. rewrite app_nil_r. auto.
    + stops_before_request.
  - destruct Hlog as [H | H]; subst h1.
    + exists []. simpl. rewrite app_nil_r. auto.
    + stops_before_request.
Qed.

Lemma execute_calls (c : cmd.Command) (fl : cmd.Flags) (h : log)
      (good : log -> Prop) :
  good [] ->
  (exists A, snd (cmd.RunE c fl h) = h ++ A /\ good A) ->
  exists A, snd (cmd.execute c fl h) = h ++ A /\ good A.
Proof.
  intros Hnil Hrun.
  destruct (execute_cases c fl h) as [H | [r [H _]]]; rewrite H.
  - exact Hrun.
  - exists []. simpl. rewrite app_nil_r. auto.
Qed.

(** X5.  In every deposit and every withdraw run the calls come in one
    order: the read of the keypair file; then, if the run gets that far,
    a single request to the API; then only calls to the ledger node and
    the transaction SDK.  The request is a POST to the operation's URL
    with the configured priority fee as its query; its body is the
    encoding of the command's request structure for the loaded client,
    and its [x-wallet-pubkey] header is the owner named in that body. *)
Theorem X5_deposit_withdraw_calls_in_order :
  forall (env : cmd.Env) (fl : cmd.Flags) (h : log),
    (exists A,
        snd (cmd.execute (cmd.depositCmd env) fl h) = h ++ A
        /\ (Forall reads_file A
            \/ exists c body,
                loaded (cmd.sdk env) c
                /\ cmd.json_Marshal_DepositRequest
                     env (cmd.deposit_request env c fl) = Ok body
                /\ reads_then_request_then_ledger
                     A (generate_request env "deposit" c body)
                /\ http.Header_Get "x-wallet-pubkey"
                     (http.Header (generate_request env "deposit" c body))
                   = Some (cmd.DepositRequest.Owner (cmd.deposit_request env c fl))))
    /\ (exists A,
           snd (cmd.execute (cmd.withdrawCmd env) fl h) = h ++ A
           /\ (Forall reads_file A
               \/ exists c body,
                   loaded (cmd.sdk env) c
                   /\ cmd.json_Marshal_WithdrawRequest
                        env (cmd.withdraw_request env c fl) = Ok body
                   /\ reads_then_request_then_ledger
                        A (generate_request env "withdraw" c body)
                   /\ http.Header_Get "x-wallet-pubkey"
                        (http.Header (generate_request env "withdraw" c body))
                      = Some (cmd.WithdrawRequest.Owner
                                (cmd.withdraw_request env c fl)))).
Proof.
  intros env fl h. split.
  - apply execute_calls; [left; constructor|].
    destruct (depositCmd_RunE_calls env fl h) as [A [HA [HR | HR]]];
      exists A; (split; [exact HA|]); [left; exact HR|].
    destruct HR as [c [body [Hloaded [Hbody Hshape]]]].
    right. exists c, body.
    split; [exact Hloaded|]. split; [exact Hbody|].
    split; [exact Hshape | reflexivity].
  - apply execute_calls; [left; constructor|].
    destruct (withdrawCmd_RunE_calls env fl h) as [A [HA [HR | HR]]];
      exists A; (split; [exact HA|]); [left; exact HR|].
    destruct HR as [c [body [Hloaded [Hbody Hshape]]]].
    right. exists c, body.
    split; [exact Hloaded|]. split; [exact Hbody|].
    split; [exact Hshape | reflexivity].
Qed.

(* ================================================================== *)
(** ** Required flags *)







(* ================================================================== *)
(** ** Building a transaction from instructions *)

(** X7.  [CreateSignAndSendTransaction] first fetches a blockhash.  If
    the fetch or the construction of the transaction fails, that error is
    returned, wrapped, and nothing is signed or submitted.  Otherwise the
    transaction built from the instructions, the fetched blockhash and
    the client's public key as payer is signed, and what signing left is
    submitted once, whatever [tx.Sign] returned: the result is the node's
    signature, or the node's error wrapped in "failed to send
    transaction". *)
Theorem X7_CreateSignAndSendTransaction :
  forall (env : internal.Env) (c : internal.SolanaClient)
         (instructions : list solana.Instruction) (h : log),
    let run := internal.CreateSignAndSendTransaction env c instructions h in
    let fetch := EvGetLatestBlockhash (internal.RpcClient c) rpc.CommitmentFinalized in
    exists t,
      snd run = h ++ fetch :: t
      /\ (count is_submit t <= 1)%nat
      /\ match internal.GetLatestBlockhash env h (internal.RpcClient c)
                                           rpc.CommitmentFinalized with
         | Err e =>
             t = [] /\ fst run = Err (Errorf_w "failed to get recent blockhash: " e)
         | Panic => t = [] /\ fst run = Panic
         | Ok blockhash =>
             match internal.NewTransaction env instructions blockhash
                                           (internal.PublicKey c) with
             | Err e =>
                 t = [] /\ fst run = Err (Errorf_w "failed to create transaction: " e)
             | Panic => t = [] /\ fst run = Panic
             | Ok tx =>
                 let signed :=
                   fst (internal.Transaction_Sign env (internal.signer c) tx) in
                 t = [ EvSign tx;
                       EvSendTransactionWithOpts (internal.RpcClient c) signed
                                                 finalized_opts ]
                 /\ fst run
                    = match internal.SendTransactionWithOpts
                              env (h ++ [fetch; EvSign tx])
                              (internal.RpcClient c) signed finalized_opts with
                      | Ok sig => Ok sig
                      | Err e => Err (Errorf_w "failed to send transaction: " e)
                      | Panic => Panic
                      end
             end
         end.
Proof.
  intros env c instructions h run fetch.
  assert (Hrun : run = internal.CreateSignAndSendTransaction env c instructions h)
    by reflexivity.
  clearbody run.
  unfold internal.CreateSignAndSendTransaction, internal.CreateTransaction in Hrun.
  rewrite bind_run, bind_run, wrap_call_run in Hrun. fold fetch in Hrun.
  destruct (internal.GetLatestBlockhash env h (internal.RpcClient c)
                                        rpc.CommitmentFinalized)
    as [blockhash | e |]; cbv beta iota in Hrun;
    [| subst run; exists []; simpl; repeat split; auto ..].
  rewrite bind_run, wrap_lift_run in Hrun.
  destruct (internal.NewTransaction env instructions blockhash
                                    (internal.PublicKey c))
    as [tx | e |]; cbv beta iota in Hrun; unfold ret in Hrun;
    [| subst run; exists []; simpl; repeat split; auto ..].
  rewrite bind_run in Hrun.
  unfold internal.call_SignTransaction, call in Hrun.
  rewrite SignTransaction_eq in Hrun. cbv beta iota in Hrun.
  replace ((h ++ [fetch]) ++ [EvSign tx]) with (h ++ [fetch; EvSign tx]) in Hrun
    by (rewrite <- app_assoc; reflexivity).
  rewrite SendTransaction_eq in Hrun. subst run. cbv zeta.
  eexists. simpl. repeat rewrite <- app_assoc. simpl.
  split; [reflexivity|]. split; [unfold count; simpl; lia|].
  split; reflexivity.
Qed.

(* ================================================================== *)
(** ** The errors of a batch *)

Lemma for_range_Err {A : Type} (xs : list A) (body : A -> M unit) (e : error) :
  forall h,
    fst (for_range xs body h) = Err e ->
    exists x h', In x xs /\ fst (body x h') = Err e.
Proof.
  induction xs as [|x xs IH]; intros h Hrun.
  - discriminate Hrun.
  - rewrite for_range_cons in Hrun.
    destruct (body x h) as [[[] | e' |] h1] eqn:Hx.
    + destruct (IH h1 Hrun) as [y [h' [Hin Hy]]].
      exists y, h'. split; [right; exact Hin | exact Hy].
    + exists x, h. rewrite Hx. split; [left; reflexivity | exact Hrun].
    + discriminate Hrun.
Qed.

Lemma handle_one_Err (env : internal.Env) (c : internal.SolanaClient)
      (blockhash : solana.Hash) (b64_tx : string) (h : log) (e : error) :
  fst (internal.handle_one env c blockhash b64_tx h) = Err e ->
  (exists e0,
      internal.base64_DecodeString env b64_tx = Err e0
      /\ e = Errorf_w "failed to decode transaction: " e0)
  \/ (exists txBytes e0,
         internal.base64_DecodeString env b64_tx = Ok txBytes
         /\ internal.TransactionFromDecoder env txBytes = Err e0
         /\ e = Errorf_w "failed to deserialize transaction: " e0)
  \/ (exists h' tx e0,
         internal.SendTransactionWithOpts env h' (internal.RpcClient c) tx
                                          finalized_opts = Err e0
         /\ e = Errorf_w "failed to send transaction: "
                  (Errorf_w "failed to send transaction: " e0)).
Proof.
  unfold internal.handle_one.
  rewrite bind_run, wrap_call_run.
  destruct (internal.base64_DecodeString env b64_tx) as [txBytes | e0 |] eqn:Hd;
    cbv beta iota; simpl fst.
  - rewrite bind_run, wrap_call_run.
    destruct (internal.TransactionFromDecoder env txBytes) as [tx | e0 |] eqn:Ht;
      cbv beta iota zeta; simpl fst.
    + rewrite bind_run. unfold internal.call_SignTransaction, call at 1.
      rewrite SignTransaction_eq. cbv beta iota.
      rewrite bind_run, wrap_run, SendTransaction_eq.
      destruct (internal.SendTransactionWithOpts env _ _ _ _) as [sig | e0 |] eqn:Hsend;
        cbv beta iota; simpl fst; try discriminate.
      intros He. injection He as <-.
      right; right. eexists; eexists; exists e0. split; [exact Hsend | reflexivity].
    + intros He. injection He as <-.
      right; left. exists txBytes, e0. auto.
    + discriminate.
  - intros He. injection He as <-. left. exists e0. auto.
  - discriminate.
Qed.

(** X8.  An error [HandleB64Transactions] returns is the error of a call
    it made, wrapped: the fetch's in "failed to get latest blockhash", a
    decoder's in "failed to decode transaction" or "failed to deserialize
    transaction" for an envelope of the batch, or the node's rejection of
    a submission, wrapped twice in "failed to send transaction".  It is
    never the signing error its loop has a branch for: [SignTransaction]
    returns no error. *)
Theorem X8_HandleB64Transactions_errors :
  forall (env : internal.Env) (c : internal.SolanaClient)
         (b64_txs : list string) (h : log) (e : error),
    fst (internal.HandleB64Transactions env c b64_txs h) = Err e ->
    ((exists e0,
         internal.GetLatestBlockhash env h (internal.RpcClient c)
                                     rpc.CommitmentFinalized = Err e0
         /\ e = Errorf_w "failed to get latest blockhash: " e0)
     \/ (exists b64_tx e0,
            In b64_tx b64_txs
            /\ internal.base64_DecodeString env b64_tx = Err e0
            /\ e = Errorf_w "failed to decode transaction: " e0)
     \/ (exists b64_tx txBytes e0,
            In b64_tx b64_txs
            /\ internal.base64_DecodeString env b64_tx = Ok txBytes
            /\ internal.TransactionFromDecoder env txBytes = Err e0
            /\ e = Errorf_w "failed to deserialize transaction: " e0)
     \/ (exists h' tx e0,
            internal.SendTransactionWithOpts env h' (internal.RpcClient c) tx
                                             finalized_opts = Err e0
            /\ e = Errorf_w "failed to send transaction: "
                     (Errorf_w "failed to send transaction: " e0)))
    /\ forall e0, e <> Errorf_w "failed to sign transaction: " e0.
Proof.
  intros env c b64_txs h e Hrun.
  assert (Hforms :
            (exists e0,
                internal.GetLatestBlockhash env h (internal.RpcClient c)
                                            rpc.CommitmentFinalized = Err e0
                /\ e = Errorf_w "failed to get latest blockhash: " e0)
            \/ (exists b64_tx e0,
                   In b64_tx b64_txs
                   /\ internal.base64_DecodeString env b64_tx = Err e0
                   /\ e = Errorf_w "failed to decode transaction: " e0)
            \/ (exists b64_tx txBytes e0,
                   In b64_tx b64_txs
                   /\ internal.base64_DecodeString env b64_tx = Ok txBytes
                   /\ internal.TransactionFromDecoder env txBytes = Err e0
                   /\ e = Errorf_w "failed to deserialize transaction: " e0)
            \/ (exists h' tx e0,
                   internal.SendTransactionWithOpts
                     env h' (internal.RpcClient c) tx finalized_opts = Err e0
                   /\ e = Errorf_w "failed to send transaction: "
                            (Errorf_w "failed to send transaction: " e0))).
  { unfold internal.HandleB64Transactions in Hrun.
    rewrite bind_run, wrap_call_run in Hrun.
    destruct (internal.GetLatestBlockhash env h (internal.RpcClient c)
                                          rpc.CommitmentFinalized)
      as [blockhash | e0 |]; cbv beta iota in Hrun; simpl fst in Hrun.
    - destruct (for_range_Err _ _ _ _ Hrun) as [b64_tx [h' [Hin Hone]]].
      destruct (handle_one_Err env c blockhash b64_tx h' e Hone)
        as [[e0 [Hd He]] | [[txBytes [e0 [Hd [Ht He]]]] | Hsend]].
      + right; left. exists b64_tx, e0. auto.
      + right; right; left. exists b64_tx, txBytes, e0. auto.
      + right; right; right. exact Hsend.
    - injection Hrun as <-. left. exists e0. auto.
    - discriminate Hrun. }
  split; [exact Hforms|].
  intros e1 He1. subst e.
  destruct Hforms as [[e0 [_ H]] | [[s [e0 [_ [_ H]]]] | [[s [b [e0 [_ [_ [_ H]]]]]] | [h' [tx [e0 [_ H]]]]]]];
    discriminate H.
Qed.

Lemma X8_HandleB64Transactions_errors_witness :
  (exists e0,
      internal.GetLatestBlockhash (Mock.sdk_env "key" Mock.keyfile64 0) []
                                  (internal.RpcClient Mock.clientA)
                                  rpc.CommitmentFinalized = Err e0
      /\ Errorf_w "failed to send transaction: "
           (Errorf_w "failed to send transaction: "
              (Errorf "Transaction simulation failed"))
         = Errorf_w "failed to get latest blockhash: " e0)
  \/ (exists b64_tx e0,
         In b64_tx ["1A"]
         /\ internal.base64_DecodeString (Mock.sdk_env "key" Mock.keyfile64 0) b64_tx
            = Err e0
         /\ Errorf_w "failed to send transaction: "
              (Errorf_w "failed to send transaction: "
                 (Errorf "Transaction simulation failed"))
            = Errorf_w "failed to decode transaction: " e0)
  \/ (exists b64_tx txBytes e0,
         In b64_tx ["1A"]
         /\ internal.base64_DecodeString (Mock.sdk_env "key" Mock.keyfile64 0) b64_tx
            = Ok txBytes
         /\ internal.TransactionFromDecoder (Mock.sdk_env "key" Mock.keyfile64 0) txBytes
            = Err e0
         /\ Errorf_w "failed to send transaction: "
              (Errorf_w "failed to send transaction: "
                 (Errorf "Transaction simulation failed"))
            = Errorf_w "failed to deserialize transaction: " e0)
  \/ (exists h' tx e0,
         internal.SendTransactionWithOpts
           (Mock.sdk_env "key" Mock.keyfile64 0) h'
           (internal.RpcClient Mock.clientA) tx finalized_opts = Err e0
         /\ Errorf_w "failed to send transaction: "
              (Errorf_w "failed to send transaction: "
                 (Errorf "Transaction simulation failed"))
            = Errorf_w "failed to send transaction: "
                (Errorf_w "failed to send transaction: " e0)).
Proof.
  apply (X8_HandleB64Transactions_errors
           (Mock.sdk_env "key" Mock.keyfile64 0) Mock.clientA ["1A"] []).
  reflexivity.
Defined.

(* ================================================================== *)
(** ** One submission per envelope *)





(* ================================================================== *)
(** ** The amount that is sent *)

Lemma N_to_uint_nonnil (n : N) : N.to_uint n <> Nil.
Proof.
  destruct n as [|p]; simpl.
  - discriminate.
  - apply DecimalPos.Unsigned.to_uint_nonnil.
Qed.

Lemma read_decimal_string_of_uint (n : N) :
  read_decimal (NilZero.string_of_uint (N.to_uint n)) = Some n.
Proof.
  unfold read_decimal.
  rewrite (NilZero.usu _ (N_to_uint_nonnil n)). simpl.
  rewrite DecimalN.Unsigned.of_to. reflexivity.
Qed.

(** [round_half_even m (-p)] is within one half of [m / 2^p], and even
    when it is exactly one half away. *)
Lemma round_half_even_nearest (m p : positive) :
  let d := (2 ^ Npos p)%N in
  let r := fmt.round_half_even m (Zneg p) in
  (2 * r * d <= 2 * Npos m + d)%N
  /\ (2 * Npos m <= 2 * r * d + d)%N
  /\ ((2 * r * d = 2 * Npos m + d \/ 2 * Npos m = 2 * r * d + d)%N ->
      N.even r = true).
Proof.
  intros d r. subst r. unfold fmt.round_half_even. fold d.
  assert (Hd : d <> 0%N) by (apply N.pow_nonzero; discriminate).
  pose proof (N.div_mod (Npos m) d Hd) as Hdiv.
  pose proof (N.mod_lt (Npos m) d Hd) as Hlt.
  set (q := (Npos m / d)%N) in *. set (rem := (Npos m mod d)%N) in *.
  destruct (N.compare_spec (2 * rem) d) as [Heq | Hl | Hg].
  - destruct (N.even q) eqn:Heven.
    + split; [nia|]. split; [nia|]. intros _. exact Heven.
    + split; [nia|]. split; [nia|]. intros _.
      rewrite N.even_succ, <- N.negb_even, Heven. reflexivity.
  - split; [nia|]. split; [nia|]. intros [H | H]; nia.
  - split; [nia|]. split; [nia|]. intros [H | H]; nia.
Qed.

(** X10.  For a finite, non-zero amount [(-1)^s * m * 2^e] both commands
    send the sign followed by decimal digits, and the number the digits
    denote is the amount's magnitude rounded to the nearest integer, ties
    to the even one: it is the magnitude itself when [e >= 0], and
    otherwise within one half of it.  So a fractional amount is silently
    rounded. *)
Theorem X10_amount_is_rounded_to_nearest_integer :
  forall (env : cmd.Env) (c : internal.SolanaClient) (fl : cmd.Flags)
         (s : bool) (m : positive) (e : Z),
    cmd.amount fl = S754_finite s m e ->
    exists (digits : string) (r : N),
      cmd.DepositRequest.DepositAmount (cmd.deposit_request env c fl)
      = (fmt.sign_prefix s ++ digits)%string
      /\ cmd.WithdrawRequest.WithdrawAmount (cmd.withdraw_request env c fl)
         = (fmt.sign_prefix s ++ digits)%string
      /\ read_decimal digits = Some r
      /\ match e with
         | Zneg p =>
             let d := (2 ^ Npos p)%N in
             (2 * r * d <= 2 * Npos m + d)%N
             /\ (2 * Npos m <= 2 * r * d + d)%N
             /\ ((2 * r * d = 2 * Npos m + d \/ 2 * Npos m = 2 * r * d + d)%N ->
                 N.even r = true)
         | _ => r = (Npos m * 2 ^ Z.to_N e)%N
         end.
Proof.
  intros env c fl s m e Hamount.
  exists (NilZero.string_of_uint (N.to_uint (fmt.round_half_even m e))),
         (fmt.round_half_even m e).
  change (cmd.DepositRequest.DepositAmount (cmd.deposit_request env c fl))
    with (fmt.Sprintf_0f (cmd.amount fl)).
  change (cmd.WithdrawRequest.WithdrawAmount (cmd.withdraw_request env c fl))
    with (fmt.Sprintf_0f (cmd.amount fl)).
  rewrite Hamount. unfold fmt.Sprintf_0f.
  split; [reflexivity|]. split; [reflexivity|].
  split; [apply read_decimal_string_of_uint|].
  destruct e as [|p|p]; try reflexivity.
  apply round_half_even_nearest.
Qed.

Lemma X10_amount_is_rounded_to_nearest_integer_witness :
  exists (digits : string) (r : N),
    cmd.DepositRequest.DepositAmount
      (cmd.deposit_request (Mock.env "key" Mock.keyfile64 9 200 "1A") Mock.client0
                           (Mock.flags (S754_finite false 7 (-1)) false ["amount"; "mint"]))
    = (fmt.sign_prefix false ++ digits)%string
    /\ cmd.WithdrawRequest.WithdrawAmount
         (cmd.withdraw_request (Mock.env "key" Mock.keyfile64 9 200 "1A") Mock.client0
                               (Mock.flags (S754_finite false 7 (-1)) false ["amount"; "mint"]))
       = (fmt.sign_prefix false ++ digits)%string
    /\ read_decimal digits = Some r
    /\ (2 * r * 2 ^ 1 <= 2 * 7 + 2 ^ 1)%N
    /\ (2 * 7 <= 2 * r * 2 ^ 1 + 2 ^ 1)%N
    /\ ((2 * r * 2 ^ 1 = 2 * 7 + 2 ^ 1 \/ 2 * 7 = 2 * r * 2 ^ 1 + 2 ^ 1)%N ->
        N.even r = true).
Proof.
  apply (X10_amount_is_rounded_to_nearest_integer
           (Mock.env "key" Mock.keyfile64 9 200 "1A") Mock.client0
           (Mock.flags (S754_finite false 7 (-1)) false ["amount"; "mint"])
           false 7%positive (-1)%Z).
  reflexivity.
Defined.

Lemma round_half_even_small (m p : positive) :
  (2 * Npos m <= 2 ^ Npos p)%N -> fmt.round_half_even m (Zneg p) = 0%N.
Proof.
  intros Hsmall. unfold fmt.round_half_even.
  assert (Hlt : (Npos m < 2 ^ Npos p)%N) by lia.
  rewrite (N.div_small _ _ Hlt), (N.mod_small _ _ Hlt).
  destruct (N.compare_spec (2 * Npos m) (2 ^ Npos p)) as [H | H | H];
    [reflexivity | reflexivity | lia].
Qed.

(** X11.  The withdraw validation compares the amount with zero, the
    request carries it rounded: an amount that is not zero and at most
    one half in magnitude passes the validation without [--all], and the
    request then asks for "0" ("-0" when the amount is negative).  A
    deposit of such an amount sends the same text. *)
Theorem X11_small_amount_passes_validation_and_is_sent_as_zero :
  forall (env : cmd.Env) (c : internal.SolanaClient) (fl : cmd.Flags)
         (s : bool) (m p : positive),
    cmd.amount fl = S754_finite s m (Zneg p) ->
    (2 * Npos m <= 2 ^ Npos p)%N ->
    cmd.withdrawCmd_PreRunE fl = Ok tt
    /\ cmd.WithdrawRequest.WithdrawAmount (cmd.withdraw_request env c fl)
       = (fmt.sign_prefix s ++ "0")%string
    /\ cmd.DepositRequest.DepositAmount (cmd.deposit_request env c fl)
       = (fmt.sign_prefix s ++ "0")%string.
Proof.
  intros env c fl s m p Hamount Hsmall.
  split.
  - apply withdrawCmd_PreRunE_accepts. right.
    rewrite Hamount. destruct s; reflexivity.
  - change (fmt.Sprintf_0f (cmd.amount fl) = (fmt.sign_prefix s ++ "0")%string
            /\ fmt.Sprintf_0f (cmd.amount fl) = (fmt.sign_prefix s ++ "0")%string).
    rewrite Hamount. unfold fmt.Sprintf_0f.
    rewrite (round_half_even_small m p Hsmall). split; reflexivity.
Qed.

Lemma X11_small_amount_passes_validation_and_is_sent_as_zero_witness :
  cmd.withdrawCmd_PreRunE (Mock.flags (S754_finite false 1 (-2)) false ["amount"; "mint"])
  = Ok tt
  /\ cmd.WithdrawRequest.WithdrawAmount
       (cmd.withdraw_request (Mock.env "key" Mock.keyfile64 9 200 "1A") Mock.client0
                             (Mock.flags (S754_finite false 1 (-2)) false ["amount"; "mint"]))
     = "0"
  /\ cmd.DepositRequest.DepositAmount
       (cmd.deposit_request (Mock.env "key" Mock.keyfile64 9 200 "1A") Mock.client0
                            (Mock.flags (S754_finite false 1 (-2)) false ["amount"; "mint"]))
     = "0".
Proof.
  apply (X11_small_amount_passes_validation_and_is_sent_as_zero
           (Mock.env "key" Mock.keyfile64 9 200 "1A") Mock.client0
           (Mock.flags (S754_finite false 1 (-2)) false ["amount"; "mint"])
           false 1%positive 2%positive).
  - reflexivity.
  - vm_compute. discriminate.
Defined.

(* ================================================================== *)
(** ** The earlier deposit loop and the present one *)

Lemma for_range_map {A B : Type} (f : A -> B) (xs : list A) (body : B -> M unit)
      (h : log) :
  for_range (map f xs) body h = for_range xs (fun x => body (f x)) h.
Proof.
  revert h. induction xs as [|x xs IH]; intros h; [reflexivity|].
  simpl map. rewrite !for_range_cons.
  destruct (body (f x) h) as [[[] | e |] h1]; [apply IH | reflexivity ..].
Qed.

Lemma for_range_extends {A : Type} (xs : list A) (body : A -> M unit) :
  (forall x h, exists t, snd (body x h) = h ++ t) ->
  forall h, exists t, snd (for_range xs body h) = h ++ t.
Proof.
  intros Hbody. induction xs as [|x xs IH]; intros h.
  - exists []. simpl. rewrite app_nil_r. reflexivity.
  - rewrite for_range_cons. destruct (Hbody x h) as [t Ht].
    destruct (body x h) as [[[] | e |] h1]; simpl in Ht; subst h1.
    + destruct (IH (h ++ t)) as [t' Ht']. exists (t ++ t').
      rewrite Ht', app_assoc. reflexivity.
    + exists t. reflexivity.
    + exists t. reflexivity.
Qed.

Lemma handle_one_extends (env : internal.Env) (c : internal.SolanaClient)
      (blockhash : solana.Hash) (b64_tx : string) (h : log) :
  exists t, snd (internal.handle_one env c blockhash b64_tx h) = h ++ t.
Proof. eexists. apply handle_one_log. Qed.

Section EarlierLoop.

Variable env : cmd.Env.
Variable cap_AccountKeys : solana.Transaction -> nat.
Variable c : internal.SolanaClient.
Variable blockhash : solana.Hash.

Let old_body :=
  part_002.handle_meta env cap_AccountKeys (part_001.SignTransaction (cmd.sdk env))
                       c blockhash.
Let new_body :=
  fun meta => internal.handle_one (cmd.sdk env) c blockhash
                                  (cmd.TransactionMeta.Transaction meta).

(** One envelope, from the same log: the calls of the earlier body are
    the first calls of the present one; if the earlier body succeeds, so
    does the present one, with the same calls; and wherever the earlier
    one fails other than by a panic or a signing error, the present one
    fails after the same calls. *)
Lemma handle_meta_handle_one (meta : cmd.TransactionMeta.t) (h : log) :
  (exists t, snd (new_body meta h) = snd (old_body meta h) ++ t)
  /\ (fst (old_body meta h) = Ok tt -> new_body meta h = (Ok tt, snd (old_body meta h)))
  /\ (fst (old_body meta h) <> Ok tt ->
      ~ stopped_where_the_present_goes_on (fst (old_body meta h)) ->
      snd (new_body meta h) = snd (old_body meta h)
      /\ fst (new_body meta h) <> Ok tt).
Proof.
  subst old_body new_body. cbv beta.
  unfold part_002.handle_meta, internal.handle_one, part_002.requiredSigners.
  cbv zeta.
  rewrite !bind_run, !wrap_call_run.
  destruct (internal.base64_DecodeString (cmd.sdk env) _) as [txBytes | e |];
    cbv beta iota;
    [| simpl; repeat split;
       [exists []; rewrite app_nil_r; reflexivity | discriminate ..] ..].
  rewrite !bind_run, !wrap_call_run.
  destruct (internal.TransactionFromDecoder (cmd.sdk env) txBytes) as [tx | e |];
    cbv beta iota zeta;
    [| simpl; repeat split;
       [exists []; rewrite app_nil_r; reflexivity | discriminate ..] ..].
  rewrite !bind_run.
  unfold internal.call_SignTransaction, call.
  rewrite SignTransaction_eq, part_001_SignTransaction_eq.
  cbv beta iota.
  rewrite !bind_run, !wrap_run, !SendTransaction_eq.
  destruct (Nat.ltb (cap_AccountKeys (solana.set_RecentBlockhash tx blockhash)) _);
    unfold panic, ret; cbv beta iota.
  { (* the slice of required signers is out of range *)
    split; [| split; [discriminate|];
              intros _ Hnot; exfalso; apply Hnot; left; reflexivity].
    destruct (internal.Transaction_Sign
                (cmd.sdk env) (internal.signer c)
                (solana.set_RecentBlockhash tx blockhash)) as [tx' [e|]];
      cbv beta iota; rewrite ?bind_run, ?wrap_run, ?SendTransaction_eq;
      try destruct (internal.SendTransactionWithOpts (cmd.sdk env) _ _ _ _);
      simpl; eexists; rewrite <- ?app_assoc; reflexivity. }
  destruct (internal.Transaction_Sign
              (cmd.sdk env) (internal.signer c)
              (solana.set_RecentBlockhash tx blockhash)) as [tx' [e|]];
    cbv beta iota; simpl fst; simpl snd.
  { (* tx.Sign returned an error: the present body goes on to submit *)
    split; [| split; [discriminate|];
              intros _ Hnot; exfalso; apply Hnot; right; exists e; reflexivity].
    destruct (internal.SendTransactionWithOpts (cmd.sdk env) _ _ _ _);
      simpl; eexists; reflexivity. }
  rewrite !bind_run, !wrap_run, !SendTransaction_eq.
  destruct (internal.SendTransactionWithOpts (cmd.sdk env) _ _ _ _)
    as [sig | e |]; cbv beta iota; simpl fst; simpl snd.
  - split; [exists []; rewrite app_nil_r; reflexivity|].
    split; [reflexivity|]. intros Hno. exfalso. apply Hno. reflexivity.
  - split; [exists []; rewrite app_nil_r; reflexivity|].
    split; [discriminate|]. intros _ _. split; [reflexivity | discriminate].
  - split; [exists []; rewrite app_nil_r; reflexivity|].
    split; [discriminate|]. intros _ _. split; [reflexivity | discriminate].
Qed.

Lemma earlier_loop_and_present_loop (metas : list cmd.TransactionMeta.t) :
  forall h,
    let old := for_range metas old_body h in
    let new := for_range metas new_body h in
    (exists t, snd new = snd old ++ t)
    /\ (fst old = Ok tt -> new = (Ok tt, snd old))
    /\ (fst old <> Ok tt ->
        ~ stopped_where_the_present_goes_on (fst old) ->
        snd new = snd old /\ fst new <> Ok tt).
Proof.
  induction metas as [|meta metas IH]; intros h; cbv zeta.
  - simpl. split; [exists []; rewrite app_nil_r; reflexivity|].
    split; [reflexivity|]. intros Hno. exfalso. apply Hno. reflexivity.
  - rewrite !for_range_cons.
    destruct (handle_meta_handle_one meta h) as [[t Ht] [Hok Hfail]].
    destruct (old_body meta h) as [[[] | e |] h1] eqn:Hold; simpl in Ht, Hok, Hfail.
    + rewrite (Hok eq_refl). apply IH.
    + assert (Hext : exists t', snd (match new_body meta h with
                                     | (Ok _, h') => for_range metas new_body h'
                                     | (Err e0, h') => (Err e0, h')
                                     | (Panic, h') => (Panic, h')
                                     end) = snd (new_body meta h) ++ t').
      { destruct (new_body meta h) as [[[] | e0 |] h2]; simpl;
          [| exists []; rewrite app_nil_r; reflexivity ..].
        apply for_range_extends. intros x h0. subst new_body. cbv beta.
        apply handle_one_extends. }
      destruct Hext as [t' Ht']. simpl.
      split; [exists (t ++ t'); rewrite Ht', Ht, app_assoc; reflexivity|].
      split; [discriminate|].
      intros _ Hnot.
      assert (Hne : Err e <> Ok tt) by discriminate.
      destruct (Hfail Hne Hnot) as [Hsnd Hfst].
      destruct (new_body meta h) as [[[] | e0 |] h2]; simpl in *;
        [exfalso; apply Hfst; reflexivity | ..];
        (split; [exact Hsnd | discriminate]).
    + simpl. 
      assert (Hext : exists t', snd (match new_body meta h with
                                     | (Ok _, h') => for_range metas new_body h'
                                     | (Err e0, h') => (Err e0, h')
                                     | (Panic, h') => (Panic, h')
                                     end) = snd (new_body meta h) ++ t').
      { destruct (new_body meta h) as [[[] | e0 |] h2]; simpl;
          [| exists []; rewrite app_nil_r; reflexivity ..].
        apply for_range_extends. intros x h0. subst new_body. cbv beta.
        apply handle_one_extends. }
      destruct Hext as [t' Ht'].
      split; [exists (t ++ t'); rewrite Ht', Ht, app_assoc; reflexivity|].
      split; [discriminate|].
      intros _ Hnot. exfalso. apply Hnot. left. reflexivity.
Qed.

End EarlierLoop.

Lemma goes_on_from_refl (r : outcome unit * log) : goes_on_from r r.
Proof.
  split; [exists []; rewrite app_nil_r; reflexivity|].
  split; [reflexivity|]. intros _. split; [reflexivity | tauto].
Qed.

Lemma goes_on_from_bind {A : Type} (m : M A) (k1 k2 : A -> M unit) (h : log) :
  (forall a h', goes_on_from (k1 a h') (k2 a h')) ->
  goes_on_from (bind m k1 h) (bind m k2 h).
Proof.
  intros Hk. rewrite !bind_run.
  destruct (m h) as [[a | e |] h']; [apply Hk | apply goes_on_from_refl ..].
Qed.

Lemma goes_on_from_loops (msg : string) (old new : outcome unit * log) :
  (exists t, snd new = snd old ++ t) ->
  (fst old = Ok tt -> new = (Ok tt, snd old)) ->
  (fst old <> Ok tt ->
   ~ stopped_where_the_present_goes_on (fst old) ->
   snd new = snd old /\ fst new <> Ok tt) ->
  goes_on_from old (match new with
                    | (Ok a, h') => (Ok a, h')
                    | (Err e, h') => (Err (Errorf_w msg e), h')
                    | (Panic, h') => (Panic, h')
                    end).
Proof.
  intros Hext Hok Hfail.
  destruct old as [[[] | e |] ho]; simpl in Hext, Hok, Hfail.
  - rewrite (Hok eq_refl). apply goes_on_from_refl.
  - split; [destruct new as [[[] | e' |] hn]; exact Hext|].
    split; [discriminate|]. intros Hnot.
    assert (Hne : Err e <> Ok tt) by discriminate.
    destruct (Hfail Hne Hnot) as [Hsnd Hfst].
    destruct new as [[[] | e' |] hn]; simpl in *;
      (split; [exact Hsnd | split; [intros H | discriminate]]);
      solve [exfalso; apply Hfst; reflexivity | discriminate].
  - split; [destruct new as [[[] | e' |] hn]; exact Hext|].
    split; [discriminate|]. intros Hnot. exfalso. apply Hnot. left. reflexivity.
Qed.

(** X12.  The earlier deposit command (part_002, whose loop calls the
    [SignTransaction] of part_001) and the present one, run from the same
    log in the same environment.  The calls of the earlier command are the
    first calls of the present one.  If the earlier command succeeds, the
    present one succeeds with the same calls.  Unless the earlier command
    ends in a panic (the slice of the required signers can panic, and the
    present command no longer takes it) or in the error of
    [SignTransaction] wrapped once more (the present [SignTransaction]
    returns none), the two make the same calls and both succeed or both
    fail. *)
Theorem X12_earlier_deposit_and_present_deposit
        (env : cmd.Env) (cap_AccountKeys : solana.Transaction -> nat)
        (fl : cmd.Flags) (h : log) :
  let old := part_002.depositCmd_RunE
               env cap_AccountKeys (part_001.SignTransaction (cmd.sdk env)) fl h in
  let new := cmd.depositCmd_RunE env fl h in
  (exists t, snd new = snd old ++ t)
  /\ (fst old = Ok tt -> new = old)
  /\ (~ stopped_where_the_present_goes_on (fst old) ->
      snd new = snd old /\ (fst new = Ok tt <-> fst old = Ok tt)).
Proof.
  cbv zeta.
  change (goes_on_from
            (part_002.depositCmd_RunE
               env cap_AccountKeys (part_001.SignTransaction (cmd.sdk env)) fl h)
            (cmd.depositCmd_RunE env fl h)).
  unfold part_002.depositCmd_RunE, cmd.depositCmd_RunE. cbv zeta.
  apply goes_on_from_bind. intros client h1.
  apply goes_on_from_bind. intros jsonData h2.
  apply goes_on_from_bind. intros req h3.
  apply goes_on_from_bind. intros resp h4.
  destruct (negb _); [apply goes_on_from_refl|].
  apply goes_on_from_bind. intros response h5.
  unfold internal.HandleB64Transactions.
  rewrite wrap_run, !bind_run, !wrap_call_run.
  destruct (internal.GetLatestBlockhash (cmd.sdk env) h5 _ _)
    as [blockhash | e |]; cbv beta iota.
  - rewrite for_range_map.
    pose proof (earlier_loop_and_present_loop
                  env cap_AccountKeys client blockhash
                  (cmd.DepositResponse.Data_TransactionMeta response)
                  (h5 ++ [EvGetLatestBlockhash (internal.RpcClient client)
                                               rpc.CommitmentFinalized]))
      as Hloops.
    cbv zeta beta in Hloops. destruct Hloops as [Hext [Hok Hfail]].
    exact (goes_on_from_loops "failed to handle transactions: " _ _
                              Hext Hok Hfail).
  - split; [exists []; rewrite app_nil_r; reflexivity|].
    split; [discriminate|]. intros _.
    split; [reflexivity | split; discriminate].
  - apply goes_on_from_refl.
Qed.

(* ================================================================== *)
(** ** What the earlier deposit command submits *)

Lemma yields_of_calls {A : Type} (P P' : event -> Prop) (Q : A -> Prop)
      (m : M A) :
  (forall ev, P ev -> P' ev) -> yields P Q m -> yields P' Q m.
Proof.
  intros HPP Hm h. destruct (Hm h) as [t [Ht [HP HQ]]].
  exists t. split; [exact Ht|]. split; [| exact HQ].
  eapply Forall_impl; [exact HPP | exact HP].
Qed.

Lemma part_001_SignTransaction_Ok (env : internal.Env)
      (c : internal.SolanaClient) (tx tx' : solana.Transaction) :
  part_001.SignTransaction env c tx = (Some tx', None) ->
  internal.Transaction_Sign env (internal.signer c) tx = (tx', None).
Proof.
  unfold part_001.SignTransaction.
  destruct (internal.Transaction_Sign env (internal.signer c) tx) as [tx0 [e|]];
    intros H; [discriminate|]. injection H as <-. reflexivity.
Qed.

(** X13.  With the [SignTransaction] of part_001, the earlier deposit
    command submits only what was signed: whatever the environment, every
    submission it adds to the log is made by the client loaded from the
    configuration, with preflight on and finalized preflight commitment,
    and carries a transaction that a call of [tx.Sign] with the client's
    key getter returned without an error. *)
Theorem X13_earlier_deposit_submits_only_signed
        (env : cmd.Env) (cap_AccountKeys : solana.Transaction -> nat)
        (fl : cmd.Flags) :
  emits (submits_signed_only (cmd.sdk env))
        (part_002.depositCmd_RunE
           env cap_AccountKeys (part_001.SignTransaction (cmd.sdk env)) fl).
Proof.
  apply yields_emits with (Q := fun _ => True).
  unfold part_002.depositCmd_RunE. cbv zeta.
  apply yields_bind with (Q := loaded (cmd.sdk env)).
  { apply yields_wrap.
    apply yields_of_calls with (P := reads_file);
      [intros [] Hev; try exact I; destruct Hev
      | apply NewSolanaClient_yields_loaded]. }
  intros client Hclient.
  apply yields_bind with (Q := fun _ => True);
    [apply yields_wrap, yields_lift; auto | intros jsonData _].
  apply yields_bind with (Q := fun _ => True);
    [apply yields_wrap, yields_lift; auto | intros req _].
  apply yields_bind with (Q := fun _ => True);
    [apply yields_wrap, yields_call; [exact I | auto] | intros resp _].
  destruct (negb _); [apply yields_fail|].
  apply yields_bind with (Q := fun _ => True);
    [apply yields_wrap, yields_lift; auto | intros response _].
  apply yields_bind with (Q := fun _ => True);
    [apply yields_wrap, yields_call; [exact I | auto] | intros blockhash _].
  apply yields_for_range. intros meta.
  unfold part_002.handle_meta. cbv zeta.
  apply yields_bind with (Q := fun _ => True);
    [apply yields_wrap, yields_call; [exact I | auto] | intros txBytes _].
  apply yields_bind with (Q := fun _ => True);
    [apply yields_wrap, yields_call; [exact I | auto] | intros tx _].
  apply yields_bind with (Q := fun _ => True).
  { unfold part_002.requiredSigners. cbv zeta.
    destruct (Nat.ltb _ _); [apply yields_panic | apply yields_ret; exact I]. }
  intros signers _.
  apply yields_bind
    with (Q := fun tx' =>
                 internal.Transaction_Sign
                   (cmd.sdk env) (internal.signer client)
                   (solana.set_RecentBlockhash tx blockhash) = (tx', None)).
  { unfold internal.call_SignTransaction. apply yields_call; [exact I|].
    intros h0 tx' Hsign. apply part_001_SignTransaction_Ok.
    destruct (part_001.SignTransaction _ _ _) as [[tx0|] [e|]];
      try discriminate.
    injection Hsign as <-. reflexivity. }
  intros tx' Hsigned.
  apply yields_bind with (Q := fun _ => True);
    [| intros sig _; apply yields_ret; exact I].
  apply yields_wrap. unfold internal.SendTransaction. cbv zeta.
  apply yields_bind with (Q := fun _ => True);
    [| intros sig _; apply yields_ret; exact I].
  apply yields_wrap, yields_call; [| auto].
  exists client, (solana.set_RecentBlockhash tx blockhash).
  split; [exact Hclient|]. split; [reflexivity|]. split; [reflexivity|].
  exact Hsigned.
Qed.
